(** * wordpress_manager.py: a shallow embedding and its verified properties

    The program is sequential glue over the operating system: it creates a
    directory, writes two text files, appends a line to the hosts file, runs
    [docker] / [docker-compose] as child processes, prints messages and opens
    a browser.  The embedding threads an explicit [World] through a small
    exception monad, one primitive per library call the script makes. *)

From Stdlib Require Import ZArith Ascii.
From stdpp Require Import gmap strings list fin_maps.

Local Open Scope Z_scope.

(** ** Text helpers *)

Module Text.

(** The double quote and the newline, which the generated files contain. *)
Definition dq : string := String (Ascii.ascii_of_nat 34) EmptyString.
Definition nl : string := String (Ascii.ascii_of_nat 10) EmptyString.

(** A text given line by line; every line is terminated by a newline. *)
Fixpoint unlines (ls : list string) : string :=
  match ls with
  | [] => ""
  | l :: ls' => l +:+ nl +:+ unlines ls'
  end.

(** [contains p s]: the text [p] occurs in [s] (Python's [p in s]). *)
Fixpoint contains (p s : string) : bool :=
  String.prefix p s ||
  match s with
  | EmptyString => false
  | String _ s' => contains p s'
  end.

(** The last character of a text, if any. *)
Fixpoint last_char (s : string) : option Ascii.ascii :=
  match s with
  | EmptyString => None
  | String c EmptyString => Some c
  | String _ s' => last_char s'
  end.

End Text.

Import Text.

(** ** The world the script acts on *)

(** A path names a regular file with its contents, or a directory. *)
Inductive node : Type :=
| File (content : string)
| Dir.

(** The exceptions the script can meet.  [SystemExit] is what [sys.exit]
    raises; an exception that reaches the top level ends the process with a
    non-zero status and a traceback instead of the script's own messages. *)
Inductive exn : Type :=
| FileNotFoundError (filename : string)
| FileExistsError (filename : string)
| IsADirectoryError (filename : string)
| NotADirectoryError (filename : string)
| PermissionError (filename : string)
| CalledProcessError (cmd : list string) (returncode : Z)
| SystemExit (code : Z).

(** The state of the machine as far as the script can observe or change it.
    - [fs]: the file system, keyed by the path text the script passes to the
      OS (paths are compared as texts; parents of a path are not tracked);
    - [denied]: paths the process may neither create nor open for writing;
    - [system]: the value of [platform.system()];
    - [on_path]: the executables a child process can be started from;
    - [returncode]: the exit status a started child finishes with, by
      argument vector and working directory;
    - [is_admin], [win_hosts_dir]: on Windows, [IsUserAnAdmin()] and what
      [os.path.join(DataBasePath, "hosts")] puts in front of ["hosts"], the
      registry's directory with its separator ([None] when the registry
      lookup raises);
    - [str_exn]: the text [str(e)] of an exception;
    - [stdout]: the lines printed so far;
    - [browser]: the URLs handed to [webbrowser.open] so far.
    What the child processes themselves do to the file system is outside
    the model. *)
Record World : Type := mkWorld {
  fs : gmap string node;
  denied : gset string;
  system : string;
  on_path : gset string;
  returncode : list string → option string → Z;
  is_admin : bool;
  win_hosts_dir : option string;
  str_exn : exn → string;
  stdout : list string;
  browser : list string;
}.

Definition with_fs (f : gmap string node → gmap string node) (w : World) : World :=
  mkWorld (f (fs w)) (denied w) (system w) (on_path w) (returncode w)
          (is_admin w) (win_hosts_dir w) (str_exn w) (stdout w) (browser w).

Definition with_stdout (f : list string → list string) (w : World) : World :=
  mkWorld (fs w) (denied w) (system w) (on_path w) (returncode w)
          (is_admin w) (win_hosts_dir w) (str_exn w) (f (stdout w)) (browser w).

Definition with_browser (f : list string → list string) (w : World) : World :=
  mkWorld (fs w) (denied w) (system w) (on_path w) (returncode w)
          (is_admin w) (win_hosts_dir w) (str_exn w) (stdout w) (f (browser w)).

(** ** Computations that may raise *)

Inductive Res (A : Type) : Type :=
| Ok (a : A) (w : World)
| Raise (e : exn) (w : World).
Arguments Ok {A} a w.
Arguments Raise {A} e w.

Definition M (A : Type) : Type := World → Res A.

Definition ret {A} (a : A) : M A := λ w, Ok a w.

Definition bind {A B} (m : M A) (k : A → M B) : M B := λ w,
  match m w with
  | Ok a w' => k a w'
  | Raise e w' => Raise e w'
  end.

Notation "x <- m ;; k" := (bind m (λ x, k))
  (at level 100, m at next level, right associativity).
Notation "m ;;; k" := (bind m (λ _, k))
  (at level 100, right associativity).

(** [try: body except handles: handler]. *)
Definition try_except {A} (body : M A) (handles : exn → bool)
    (handler : exn → M A) : M A := λ w,
  match body w with
  | Ok a w' => Ok a w'
  | Raise e w' => if handles e then handler e w' else Raise e w'
  end.

(** The world a run ends in, whether it returned or raised. *)
Definition world_of {A} (r : Res A) : World :=
  match r with Ok _ w => w | Raise _ w => w end.

(** ** The library calls *)

(** What the OS finds at a path; the empty path names nothing. *)
Definition stat (w : World) (path : string) : option node :=
  if decide (path = "") then None else fs w !! path.

Definition isdir (w : World) (path : string) : bool :=
  match stat w path with Some Dir => true | _ => false end.

(** [os.makedirs(name, exist_ok=True)]. *)
Definition makedirs (name : string) : M unit := λ w,
  match stat w name with
  | Some Dir => Ok tt w
  | Some (File _) => Raise (FileExistsError name) w
  | None =>
      if decide (name = "") then Raise (FileNotFoundError name) w
      else if decide (name ∈ denied w) then Raise (PermissionError name) w
      else Ok tt (with_fs (<[name := Dir]>) w)
  end.

(** [with open(path, "w") as f: f.write(data)]: create or truncate. *)
Definition write_file (path data : string) : M unit := λ w,
  match stat w path with
  | Some Dir => Raise (IsADirectoryError path) w
  | _ =>
      if decide (path = "") then Raise (FileNotFoundError path) w
      else if decide (path ∈ denied w) then Raise (PermissionError path) w
      else Ok tt (with_fs (<[path := File data]>) w)
  end.

(** [with open(path, 'a') as f: f.write(data)]: create or extend. *)
Definition append_file (path data : string) : M unit := λ w,
  match stat w path with
  | Some Dir => Raise (IsADirectoryError path) w
  | Some (File old) =>
      if decide (path ∈ denied w) then Raise (PermissionError path) w
      else Ok tt (with_fs (<[path := File (old +:+ data)]>) w)
  | None =>
      if decide (path = "") then Raise (FileNotFoundError path) w
      else if decide (path ∈ denied w) then Raise (PermissionError path) w
      else Ok tt (with_fs (<[path := File data]>) w)
  end.

(** A path is the directory [root] itself or lies below it. *)
Definition within (root path : string) : bool :=
  bool_decide (path = root) || String.prefix (root +:+ "/") path.

(** [shutil.rmtree(path)]. *)
Definition rmtree (path : string) : M unit := λ w,
  match stat w path with
  | None => Raise (FileNotFoundError path) w
  | Some (File _) => Raise (NotADirectoryError path) w
  | Some Dir =>
      Ok tt (with_fs (filter (λ kv, within path kv.1 = false)) w)
  end.

(** [subprocess.run(args, cwd=cwd, stdout=PIPE, stderr=PIPE, check=check)].
    The child first changes to [cwd] and then executes [args[0]]; either
    step failing raises in the parent: a missing working directory as
    [FileNotFoundError] (on Windows as [NotADirectoryError]), a missing
    executable as [FileNotFoundError].  With [check] a non-zero exit status
    raises [CalledProcessError]; without it the status is only returned. *)
Definition subprocess_run (args : list string) (cwd : option string)
    (check : bool) : M Z := λ w,
  let chdir_error :=
    match cwd with
    | None => None
    | Some d =>
        match stat w d with
        | Some Dir => None
        | Some (File _) => Some (NotADirectoryError d)
        | None =>
            Some (if decide (system w = "Windows")
                  then NotADirectoryError d else FileNotFoundError d)
        end
    end in
  match chdir_error with
  | Some e => Raise e w
  | None =>
      let exe := hd "" args in
      if decide (exe ∈ on_path w) then
        let rc := returncode w args cwd in
        if check && negb (rc =? 0) then Raise (CalledProcessError args rc) w
        else Ok rc w
      else Raise (FileNotFoundError exe) w
  end.

(** [print(line)]. *)
Definition print (line : string) : M unit := λ w,
  Ok tt (with_stdout (λ out, out ++ [line]) w).

(** [sys.exit(code)]. *)
Definition sys_exit {A} (code : Z) : M A := λ w, Raise (SystemExit code) w.

(** [webbrowser.open(url)]. *)
Definition webbrowser_open (url : string) : M unit := λ w,
  Ok tt (with_browser (λ urls, urls ++ [url]) w).

(** [platform.system()]. *)
Definition platform_system : M string := λ w, Ok (system w) w.

(** [ctypes.windll.shell32.IsUserAnAdmin()]. *)
Definition is_user_an_admin : M bool := λ w, Ok (is_admin w) w.

(** The registry lookup of [DataBasePath] joined with ["hosts"]; the lookup
    raises when the key or the value is missing. *)
Definition winreg_hosts_path : M string := λ w,
  match win_hosts_dir w with
  | Some d => Ok (d +:+ "hosts") w
  | None => Raise (FileNotFoundError "DataBasePath") w
  end.

(** [str(e)]. *)
Definition str (e : exn) : M string := λ w, Ok (str_exn w e) w.

(** ** The script *)

Definition is_CalledProcessError (e : exn) : bool :=
  match e with CalledProcessError _ _ => true | _ => false end.

Definition is_FileNotFoundError (e : exn) : bool :=
  match e with FileNotFoundError _ => true | _ => false end.

(** [except Exception]: everything but [SystemExit]. *)
Definition is_Exception (e : exn) : bool :=
  match e with SystemExit _ => false | _ => true end.

Definition docker_missing_message : string :=
  "Docker is not installed. Please install Docker before running this script.".
Definition compose_missing_message : string :=
  "Docker Compose is not installed. Please install Docker Compose before running this script.".

Definition check_dependencies : M unit :=
  try_except
    (_ <- subprocess_run ["docker"; "--version"] None true ;; ret tt)
    is_CalledProcessError
    (λ _, print docker_missing_message ;;; sys_exit 1) ;;;
  try_except
    (_ <- subprocess_run ["docker-compose"; "--version"] None true ;; ret tt)
    is_CalledProcessError
    (λ _, print compose_missing_message ;;; sys_exit 1).

(** The text written to [docker-compose.yml]: an f-string in the scope of
    [site_name] that has no replacement field. *)
Definition compose_text (site_name : string) : string :=
  unlines [
    "version: '3'";
    "services:";
    "  db:";
    "    image: mysql:5.7";
    "    restart: always";
    "    environment:";
    "      MYSQL_DATABASE: wordpress";
    "      MYSQL_USER: root";
    "      MYSQL_PASSWORD: example";
    "      MYSQL_RANDOM_ROOT_PASSWORD: " +:+ dq +:+ "yes" +:+ dq;
    "    volumes:";
    "      - db_data:/var/lib/mysql";
    "  wordpress:";
    "    depends_on:";
    "      - db";
    "    image: wordpress:latest";
    "    restart: always";
    "    environment:";
    "      WORDPRESS_DB_HOST: db";
    "      WORDPRESS_DB_NAME: wordpress";
    "      WORDPRESS_DB_USER: root";
    "      WORDPRESS_DB_PASSWORD: example";
    "    volumes:";
    "      - ./wp-content:/var/www/html/wp-content";
    "  nginx:";
    "    image: nginx:latest";
    "    restart: always";
    "    ports:";
    "      - " +:+ dq +:+ "80:80" +:+ dq;
    "    volumes:";
    "      - ./nginx.conf:/etc/nginx/conf.d/default.conf:ro";
    "      - ./wp-content:/var/www/html/wp-content";
    "volumes:";
    "  db_data:"
  ].

(** The text written to [nginx.conf]: the f-string's only replacement field
    is [{site_name}]; doubled braces stand for single ones. *)
Definition nginx_text (site_name : string) : string :=
  unlines [
    "server {";
    "    listen 80;";
    "    server_name " +:+ site_name +:+ ";";
    "    root /var/www/html;";
    "    index index.php;";
    "";
    "    location / {";
    "        try_files $uri $uri/ /index.php?$args;";
    "    }";
    "";
    "    location ~ \.php$ {";
    "        include fastcgi_params;";
    "        fastcgi_pass wordpress:9000;";
    "        fastcgi_index index.php;";
    "        fastcgi_param SCRIPT_FILENAME $document_root$fastcgi_script_name;";
    "    }";
    "}"
  ].

Definition compose_path (site_name : string) : string :=
  site_name +:+ "/docker-compose.yml".

Definition nginx_path (site_name : string) : string :=
  site_name +:+ "/nginx.conf".

(** The line both host registrars append. *)
Definition host_entry (site_name : string) : string :=
  "127.0.0.1 " +:+ site_name +:+ nl.

Definition add_host_entry_windows (site_name : string) : M unit :=
  admin <- is_user_an_admin ;;
  (if negb admin then
     print "Error: The script needs to be run with administrator privileges to modify the hosts entry." ;;;
     sys_exit 1
   else ret tt) ;;;
  try_except
    (hosts_path <- winreg_hosts_path ;;
     append_file hosts_path (host_entry site_name) ;;;
     print "Hosts entry added successfully.")
    is_Exception
    (λ e, msg <- str e ;; print ("Error: " +:+ msg)).

Definition add_host_entry_unix (site_name : string) : M unit :=
  let hosts_path := "/etc/hosts" in
  append_file hosts_path (host_entry site_name).

Definition created_message (site_name : string) : string :=
  "WordPress site '" +:+ site_name +:+ "' with a LEMP stack created successfully!".
Definition wait_message : string :=
  "Please wait for a moment while the site is being set up...".
Definition opening_message : string :=
  "Opening the site in your default browser...".

Definition create_wordpress_site (site_name : string) : M unit :=
  makedirs site_name ;;;
  write_file (compose_path site_name) (compose_text site_name) ;;;
  write_file (nginx_path site_name) (nginx_text site_name) ;;;
  (sys <- platform_system ;;
   if decide (sys = "Windows") then add_host_entry_windows site_name
   else add_host_entry_unix site_name) ;;;
  print (created_message site_name) ;;;
  print wait_message ;;;
  print opening_message ;;;
  webbrowser_open ("http://" +:+ site_name).

Definition enabled_message (site_name : string) : string :=
  "WordPress site '" +:+ site_name +:+ "' is now enabled and running!".
Definition disabled_message (site_name : string) : string :=
  "WordPress site '" +:+ site_name +:+ "' is now disabled and stopped!".
Definition deleted_message (site_name : string) : string :=
  "WordPress site '" +:+ site_name +:+ "' is deleted successfully!".
Definition absent_message (site_name : string) : string :=
  "WordPress site '" +:+ site_name +:+ "' does not exist.".

Definition enable_wordpress_site (site_name : string) : M unit :=
  _ <- subprocess_run ["docker-compose"; "up"; "-d"] (Some site_name) false ;;
  print (enabled_message site_name).

Definition disable_wordpress_site (site_name : string) : M unit :=
  _ <- subprocess_run ["docker-compose"; "down"] (Some site_name) false ;;
  print (disabled_message site_name).

Definition delete_wordpress_site (site_name : string) : M unit :=
  _ <- subprocess_run ["docker-compose"; "down"] (Some site_name) false ;;
  try_except
    (rmtree site_name ;;;
     print (deleted_message site_name))
    is_FileNotFoundError
    (λ _, print (absent_message site_name)).

(** The [__main__] block, from the two positional arguments on.  The parser
    rejects an action outside [choices] with exit status 2. *)
Definition choices : list string := ["create"; "enable"; "disable"; "delete"].

Definition main (site_name action : string) : M unit :=
  if decide (action ∈ choices) then
    if decide (action = "create") then
      check_dependencies ;;;
      create_wordpress_site site_name ;;;
      print wait_message ;;;
      print opening_message ;;;
      webbrowser_open ("http://" +:+ site_name)
    else if decide (action = "enable") then
      enable_wordpress_site site_name
    else if decide (action = "disable") then
      disable_wordpress_site site_name
    else if decide (action = "delete") then
      delete_wordpress_site site_name
    else
      print "Invalid action. Please use 'create', 'enable', 'disable', or 'delete' as the action."
  else sys_exit 2.

(** ** Vocabulary of the specification *)

(** The hosts file the registrar of this platform writes to, if it finds one. *)
Definition hosts_file (w : World) : option string :=
  if decide (system w = "Windows")
  then (λ d, d +:+ "hosts") <$> win_hosts_dir w
  else Some "/etc/hosts".

(** The OS lets the process create or overwrite a regular file at [path]. *)
Definition writable (w : World) (path : string) : bool :=
  negb (isdir w path) && bool_decide (path ∉ denied w).

(** The directory [name] is there or the OS lets the process create it. *)
Definition creatable_dir (w : World) (name : string) : bool :=
  match stat w name with
  | Some Dir => true
  | Some (File _) => false
  | None => bool_decide (name ≠ "") && bool_decide (name ∉ denied w)
  end.

(** The OS lets the site directory and its two files be written: the site
    name is usable as a directory name in the world [w]. *)
Definition materializable (site_name : string) (w : World) : bool :=
  creatable_dir w site_name
  && writable w (compose_path site_name)
  && writable w (nginx_path site_name).

(** The first block of [create_wordpress_site]: the directory and the two
    files (the specification's site materializer). *)
Definition site_materializer (site_name : string) : M unit :=
  makedirs site_name ;;;
  write_file (compose_path site_name) (compose_text site_name) ;;;
  write_file (nginx_path site_name) (nginx_text site_name).

(** Its second block: the platform's host registrar. *)
Definition host_registrar (site_name : string) : M unit :=
  sys <- platform_system ;;
  if decide (sys = "Windows") then add_host_entry_windows site_name
  else add_host_entry_unix site_name.

(** Its last block: the messages and the browser. *)
Definition announce (site_name : string) : M unit :=
  print (created_message site_name) ;;;
  print wait_message ;;;
  print opening_message ;;;
  webbrowser_open ("http://" +:+ site_name).

(** The file system the materializer leaves. *)
Definition materialized (site_name : string) (m : gmap string node) : gmap string node :=
  <[nginx_path site_name := File (nginx_text site_name)]>
    (<[compose_path site_name := File (compose_text site_name)]>
       (<[site_name := Dir]> m)).

(** Everything of the world but the file system, the output and the browser. *)
Definition same_env (w w' : World) : Prop :=
  denied w' = denied w ∧ system w' = system w ∧ on_path w' = on_path w ∧
  returncode w' = returncode w ∧ is_admin w' = is_admin w ∧
  win_hosts_dir w' = win_hosts_dir w ∧ str_exn w' = str_exn w.

(** The regions of the generated texts the specification speaks of. *)

(** The virtual-host line of the proxy configuration. *)
Definition server_name_line (site_name : string) : string :=
  "    server_name " +:+ site_name +:+ ";" +:+ nl.

(** The PHP location block of the proxy configuration. *)
Definition php_location_block : string :=
  unlines [
    "    location ~ \.php$ {";
    "        include fastcgi_params;";
    "        fastcgi_pass wordpress:9000;";
    "        fastcgi_index index.php;";
    "        fastcgi_param SCRIPT_FILENAME $document_root$fastcgi_script_name;";
    "    }"
  ].

(** The application service's ordering dependency on the database. *)
Definition wordpress_depends_on_db : string :=
  unlines [
    "  wordpress:";
    "    depends_on:";
    "      - db"
  ].

(** The mount that hands [nginx.conf] to the proxy. *)
Definition nginx_conf_mount : string :=
  "      - ./nginx.conf:/etc/nginx/conf.d/default.conf:ro" +:+ nl.

(** ** Sample machines *)

(** A Linux machine with Docker and Docker Compose, a hosts file and no
    sites. *)
Definition linux_box : World :=
  mkWorld {["/etc/hosts" := File ("127.0.0.1 localhost" +:+ nl)]} ∅ "Linux"
          {["docker"; "docker-compose"]} (λ _ _, 0) false None (λ _, "")
          [] [].

(** The same machine without the Docker engine. *)
Definition no_docker_box : World :=
  mkWorld (fs linux_box) ∅ "Linux" {["docker-compose"]} (λ _ _, 0) false None
          (λ _, "") [] [].

(** A machine where the directory [foo] exists but the orchestrator is not
    installed under the name [docker-compose]. *)
Definition no_compose_box : World :=
  mkWorld (<["foo" := Dir]> (fs linux_box)) ∅ "Linux" {["docker"]} (λ _ _, 0)
          false None (λ _, "") [] [].

(** A machine on which the site [foo] was set up earlier, with other files. *)
Definition stale_site_box : World :=
  mkWorld (<["foo/nginx.conf" := File "# old proxy configuration"]>
             (<["foo/docker-compose.yml" := File "# old composition"]>
                (<["foo" := Dir]> (fs linux_box))))
          ∅ "Linux" {["docker"; "docker-compose"]} (λ _ _, 0) false None
          (λ _, "") [] [].

(** A machine where the orchestrator fails in every directory. *)
Definition failing_compose_box : World :=
  mkWorld (<["foo" := Dir]> (fs linux_box)) ∅ "Linux"
          {["docker"; "docker-compose"]} (λ _ _, 1) false None (λ _, "")
          [] [].

(** ** Vocabulary of the further properties *)

(** The two messages of the Windows host registrar. *)
Definition admin_required_message : string :=
  "Error: The script needs to be run with administrator privileges to modify the hosts entry.".
Definition hosts_added_message : string :=
  "Hosts entry added successfully.".

(** [n] runs of [create_wordpress_site] for the same site, one after the
    other. *)
Fixpoint create_times (n : nat) (site_name : string) : M unit :=
  match n with
  | O => ret tt
  | S n' => create_wordpress_site site_name ;;; create_times n' site_name
  end.

(** [n] copies of a text, one after the other. *)
Fixpoint repeat_text (n : nat) (t : string) : string :=
  match n with
  | O => ""
  | S n' => t +:+ repeat_text n' t
  end.

(** The Linux machine with a hosts file the process may not write. *)
Definition readonly_hosts_box : World :=
  mkWorld (fs linux_box) {["/etc/hosts"]} "Linux"
          {["docker"; "docker-compose"]} (λ _ _, 0) false None (λ _, "")
          [] [].

(** A machine where Docker is installed but its version query fails, and
    one where only that of Docker Compose does. *)
Definition broken_docker_box : World :=
  mkWorld (fs linux_box) ∅ "Linux" {["docker"; "docker-compose"]}
          (λ _ _, 127) false None (λ _, "") [] [].

Definition broken_compose_box : World :=
  mkWorld (fs linux_box) ∅ "Linux" {["docker"; "docker-compose"]}
          (λ args _, if decide (hd "" args = "docker-compose") then 1 else 0)
          false None (λ _, "") [] [].

(** Windows machines: a user without administrator rights; an
    administrator whose registry lookup fails; an administrator with a
    hosts file where the registry says. *)
Definition windows_user_box : World :=
  mkWorld ∅ ∅ "Windows" {["docker"; "docker-compose"]} (λ _ _, 0) false
          (Some "C:\Windows\System32\drivers\etc\") (λ _, "") [] [].

Definition windows_admin_box : World :=
  mkWorld ∅ ∅ "Windows" {["docker"; "docker-compose"]} (λ _ _, 0) true
          None (λ _, "[WinError 2] The system cannot find the file specified")
          [] [].

Definition windows_hosts_box : World :=
  mkWorld {["C:\Windows\System32\drivers\etc\hosts" :=
            File ("127.0.0.1 localhost" +:+ nl)]}
          ∅ "Windows" {["docker"; "docker-compose"]} (λ _ _, 0) true
          (Some "C:\Windows\System32\drivers\etc\") (λ _, "") [] [].

(** ** Facts about texts and paths *)

Section TextFacts.

Local Open Scope nat_scope.

Lemma string_app_cons (c : Ascii.ascii) (s t : string) :
  String c s +:+ t = String c (s +:+ t).
Proof. reflexivity. Qed.

Lemma string_length_app (s t : string) :
  String.length (s +:+ t) = String.length s + String.length t.
Proof.
  induction s as [|c s IH]; [reflexivity|].
  rewrite string_app_cons. simpl. by rewrite IH.
Qed.

Lemma string_app_ne_self (s t : string) : t ≠ "" → s +:+ t ≠ s.
Proof.
  intros Ht Heq. apply (f_equal String.length) in Heq.
  rewrite string_length_app in Heq. destruct t; [done|]. simpl in Heq. lia.
Qed.

Lemma string_app_nonempty (s t : string) : t ≠ "" → s +:+ t ≠ "".
Proof.
  intros Ht Heq. apply (f_equal String.length) in Heq.
  rewrite string_length_app in Heq. destruct t; [done|]. simpl in Heq. lia.
Qed.

Lemma last_char_app (s t : string) :
  t ≠ "" → last_char (s +:+ t) = last_char t.
Proof.
  intros Ht. induction s as [|c s IH]; [reflexivity|].
  rewrite string_app_cons. simpl. rewrite IH.
  destruct (s +:+ t) eqn:E; [|done].
  by apply string_app_nonempty in E.
Qed.

Lemma prefix_refl_app (p b : string) : String.prefix p (p +:+ b) = true.
Proof.
  induction p as [|c p IH]; [by destruct b|].
  rewrite string_app_cons. simpl. destruct (Ascii.ascii_dec c c); [done|congruence].
Qed.

Lemma contains_prefix (p s : string) :
  String.prefix p s = true → contains p s = true.
Proof. intros H. destruct s; unfold contains; fold contains; by rewrite H. Qed.

Lemma contains_app (a p b : string) : contains p (a +:+ p +:+ b) = true.
Proof.
  induction a as [|c a IH].
  - change ("" +:+ p +:+ b) with (p +:+ b).
    apply contains_prefix, prefix_refl_app.
  - rewrite string_app_cons. simpl contains. rewrite IH. apply orb_true_r.
Qed.

End TextFacts.

Lemma compose_path_ne_nginx (s : string) : compose_path s ≠ nginx_path s.
Proof. intros H. apply (inj (String.app s)) in H. discriminate. Qed.

Lemma compose_path_ne_site (s : string) : compose_path s ≠ s.
Proof. by apply string_app_ne_self. Qed.

Lemma nginx_path_ne_site (s : string) : nginx_path s ≠ s.
Proof. by apply string_app_ne_self. Qed.

Lemma compose_path_nonempty (s : string) : compose_path s ≠ "".
Proof. by apply string_app_nonempty. Qed.

Lemma nginx_path_nonempty (s : string) : nginx_path s ≠ "".
Proof. by apply string_app_nonempty. Qed.

Lemma last_char_compose_path (s : string) :
  last_char (compose_path s) = Some "l"%char.
Proof. unfold compose_path. by rewrite last_char_app. Qed.

Lemma last_char_nginx_path (s : string) :
  last_char (nginx_path s) = Some "f"%char.
Proof. unfold nginx_path. by rewrite last_char_app. Qed.

(** Whatever the platform, the hosts file has a name that ends in [s]; the
    two files of a site do not. *)
Lemma last_char_hosts_file (w : World) (p : string) :
  hosts_file w = Some p → last_char p = Some "s"%char.
Proof.
  unfold hosts_file. case_decide.
  - destruct (win_hosts_dir w) as [d|]; [|done].
    intros [= <-]. by rewrite last_char_app.
  - by intros [= <-].
Qed.

Lemma hosts_file_ne_compose (w : World) (s : string) :
  hosts_file w ≠ Some (compose_path s).
Proof.
  intros H%last_char_hosts_file. by rewrite last_char_compose_path in H.
Qed.

Lemma hosts_file_ne_nginx (w : World) (s : string) :
  hosts_file w ≠ Some (nginx_path s).
Proof.
  intros H%last_char_hosts_file. by rewrite last_char_nginx_path in H.
Qed.

(** ** The library calls, one by one *)

Lemma stat_Some (w : World) (p : string) (n : node) :
  stat w p = Some n ↔ p ≠ "" ∧ fs w !! p = Some n.
Proof.
  unfold stat. destruct (decide (p = "")) as [->|]; [|tauto].
  split; [done|tauto].
Qed.

Lemma isdir_true (w : World) (p : string) :
  isdir w p = true ↔ p ≠ "" ∧ fs w !! p = Some Dir.
Proof.
  unfold isdir. rewrite <- stat_Some.
  destruct (stat w p) as [[]|]; naive_solver.
Qed.

Lemma with_fs_id (w : World) (f : gmap string node → gmap string node) :
  f (fs w) = fs w → with_fs f w = w.
Proof. destruct w. unfold with_fs. simpl. by intros ->. Qed.

Lemma makedirs_ok (w : World) (s : string) :
  creatable_dir w s = true →
  makedirs s w = Ok tt (with_fs (<[s := Dir]>) w).
Proof.
  unfold creatable_dir, makedirs.
  destruct (stat w s) as [[c|]|] eqn:E; [done| |].
  - intros _. apply stat_Some in E as [_ E].
    by rewrite with_fs_id; [|apply insert_id].
  - intros [H1 H2]%andb_true_iff.
    apply bool_decide_eq_true in H1. apply bool_decide_eq_true in H2.
    by rewrite !decide_False.
Qed.

(** Directory creation is a no-op on a directory that is already there. *)
Lemma makedirs_existing (w : World) (s : string) :
  isdir w s = true → makedirs s w = Ok tt w.
Proof.
  unfold isdir, makedirs. by destruct (stat w s) as [[c|]|].
Qed.

Lemma write_file_ok (w : World) (p d : string) :
  p ≠ "" → writable w p = true →
  write_file p d w = Ok tt (with_fs (<[p := File d]>) w).
Proof.
  unfold writable, write_file, isdir. intros Hp [H1 H2]%andb_true_iff.
  apply bool_decide_eq_true in H2.
  destruct (stat w p) as [[c|]|]; try done; by rewrite !decide_False.
Qed.

Lemma writable_insert (w : World) (p q : string) (n : node) :
  q ≠ p → writable (with_fs (<[q := n]>) w) p = writable w p.
Proof.
  unfold writable, isdir, stat. simpl. intros Hne.
  case_decide; [done|]. by rewrite lookup_insert_ne.
Qed.

Lemma site_materializer_ok (s : string) (w : World) :
  materializable s w = true →
  site_materializer s w = Ok tt (with_fs (materialized s) w).
Proof.
  unfold materializable. intros [[Hd Hc]%andb_true_iff Hn]%andb_true_iff.
  unfold site_materializer, bind.
  rewrite (makedirs_ok _ _ Hd).
  rewrite write_file_ok; [|apply compose_path_nonempty|].
  - rewrite write_file_ok; [done|apply nginx_path_nonempty|].
    rewrite !writable_insert; [done| |apply compose_path_ne_nginx].
    apply not_eq_sym, nginx_path_ne_site.
  - rewrite writable_insert; [done|]. apply not_eq_sym, compose_path_ne_site.
Qed.

Lemma makedirs_returns (s : string) (w w1 : World) :
  makedirs s w = Ok tt w1 →
  creatable_dir w s = true ∧ w1 = with_fs (<[s := Dir]>) w.
Proof.
  intros H. assert (creatable_dir w s = true) as Hd.
  { revert H. unfold makedirs, creatable_dir.
    destruct (stat w s) as [[c|]|]; [done..|].
    destruct (decide (s = "")); [done|].
    destruct (decide (s ∈ denied w)); [done|]. intros _.
    by rewrite !bool_decide_eq_true_2. }
  split; [done|]. rewrite (makedirs_ok _ _ Hd) in H. congruence.
Qed.

Lemma write_file_returns (p d : string) (w w1 : World) :
  write_file p d w = Ok tt w1 →
  writable w p = true ∧ w1 = with_fs (<[p := File d]>) w.
Proof.
  unfold write_file, writable, isdir.
  destruct (stat w p) as [[c|]|]; [|done|];
    (destruct (decide (p = "")); [done|]);
    (destruct (decide (p ∈ denied w)); [done|]);
    intros [= <-]; by rewrite bool_decide_eq_true_2.
Qed.

(** [materializable] is exactly the condition under which the three calls
    of the materializer all return. *)
Lemma site_materializer_returns_iff (s : string) (w : World) :
  (∃ w', site_materializer s w = Ok tt w') ↔ materializable s w = true.
Proof.
  split; [|intros Hm; eexists; by apply site_materializer_ok].
  intros [w' H]. revert H. unfold site_materializer, bind.
  destruct (makedirs s w) as [[] w1|] eqn:E1; [|done].
  destruct (write_file (compose_path s) _ w1) as [[] w2|] eqn:E2; [|done].
  intros E3.
  apply makedirs_returns in E1 as [Hd ->].
  apply write_file_returns in E2 as [Hc ->].
  apply write_file_returns in E3 as [Hn _].
  rewrite !writable_insert in Hn;
    [|by apply not_eq_sym, nginx_path_ne_site|apply compose_path_ne_nginx].
  rewrite writable_insert in Hc by by apply not_eq_sym, compose_path_ne_site.
  unfold materializable. by rewrite Hd, Hc, Hn.
Qed.

Lemma materialized_lookup_nginx (s : string) (m : gmap string node) :
  materialized s m !! nginx_path s = Some (File (nginx_text s)).
Proof. unfold materialized. by rewrite lookup_insert_eq. Qed.

Lemma materialized_lookup_compose (s : string) (m : gmap string node) :
  materialized s m !! compose_path s = Some (File (compose_text s)).
Proof.
  unfold materialized.
  rewrite lookup_insert_ne; [|apply not_eq_sym, compose_path_ne_nginx].
  by rewrite lookup_insert_eq.
Qed.

Lemma materialized_lookup_site (s : string) (m : gmap string node) :
  materialized s m !! s = Some Dir.
Proof.
  unfold materialized.
  rewrite lookup_insert_ne; [|apply nginx_path_ne_site].
  rewrite lookup_insert_ne; [|apply compose_path_ne_site].
  by rewrite lookup_insert_eq.
Qed.

(** Materializing over a materialized site changes nothing. *)
Lemma materialized_fixed (s : string) (m : gmap string node) :
  m !! s = Some Dir →
  m !! compose_path s = Some (File (compose_text s)) →
  m !! nginx_path s = Some (File (nginx_text s)) →
  materialized s m = m.
Proof.
  intros Hs Hc Hn. unfold materialized.
  rewrite (insert_id m s Dir Hs), (insert_id m _ _ Hc).
  by apply insert_id.
Qed.

(** ** The blocks of [create_wordpress_site] *)

Lemma create_split (s : string) (w : World) :
  create_wordpress_site s w
  = (site_materializer s ;;; host_registrar s ;;; announce s) w.
Proof.
  unfold create_wordpress_site, site_materializer, bind.
  destruct (makedirs s w) as [[] w1|]; [|done].
  destruct (write_file (compose_path s) _ w1) as [[] w2|]; [|done].
  by destruct (write_file (nginx_path s) _ w2) as [[] w3|].
Qed.

Lemma same_env_refl (w : World) : same_env w w.
Proof. by repeat split. Qed.


Lemma same_env_hosts_file (w w' : World) :
  same_env w w' → hosts_file w' = hosts_file w.
Proof. unfold same_env, hosts_file. by intros (?&->&?&?&?&->&?). Qed.

(** What a run of [append_file] can change: the named file, and only if it
    is not a directory. *)
Lemma append_file_frame (p d : string) (w : World) :
  let w' := world_of (append_file p d w) in
  same_env w w' ∧ stdout w' = stdout w ∧ browser w' = browser w ∧
  (∀ q, q ≠ p → fs w' !! q = fs w !! q) ∧
  (∀ q, fs w !! q = Some Dir → fs w' !! q = Some Dir).
Proof.
  unfold append_file.
  destruct (stat w p) as [[c|]|] eqn:E; repeat case_decide; simpl;
    repeat split; try done; intros q Hq;
    try (by rewrite lookup_insert_ne).
  - apply stat_Some in E as [_ E].
    destruct (decide (p = q)) as [->|]; [congruence|by rewrite lookup_insert_ne].
  - unfold stat in E. rewrite decide_False in E by done.
    destruct (decide (p = q)) as [->|]; [congruence|by rewrite lookup_insert_ne].
Qed.

(** The host registrar touches nothing but the hosts file, never turns a
    directory into a file, and opens no browser. *)
Lemma host_registrar_frame (s : string) (w : World) :
  let w' := world_of (host_registrar s w) in
  same_env w w' ∧ browser w' = browser w ∧
  (∀ q, hosts_file w ≠ Some q → fs w' !! q = fs w !! q) ∧
  (∀ q, fs w !! q = Some Dir → fs w' !! q = Some Dir).
Proof.
  unfold host_registrar, hosts_file, platform_system, bind.
  destruct (decide (system w = "Windows")) as [Hsys|Hsys].
  - unfold add_host_entry_windows, is_user_an_admin, bind.
    destruct (is_admin w); simpl; [|by repeat split].
    unfold try_except, winreg_hosts_path, bind.
    destruct (win_hosts_dir w) as [d|]; simpl; [|by repeat split].
    destruct (append_file_frame (d +:+ "hosts") (host_entry s) w)
      as (He & _ & Hb & Hne & Hdir).
    destruct (append_file (d +:+ "hosts") (host_entry s) w) as [[] w1|e w1];
      simpl in *.
    + repeat split; try apply He; try done. intros q Hq. apply Hne. congruence.
    + destruct e; simpl; (repeat split; try apply He; try done);
        intros q Hq; apply Hne; congruence.
  - unfold add_host_entry_unix.
    destruct (append_file_frame "/etc/hosts" (host_entry s) w)
      as (He & _ & Hb & Hne & Hdir).
    repeat split; try apply He; try done. intros q Hq. apply Hne. congruence.
Qed.

Lemma announce_ok (s : string) (w : World) :
  announce s w
  = Ok tt (with_browser (λ urls, urls ++ ["http://" +:+ s])
            (with_stdout
               (λ out, out ++ [created_message s; wait_message; opening_message])
               w)).
Proof.
  unfold announce, bind, print, webbrowser_open, with_browser, with_stdout.
  simpl. by rewrite <- !app_assoc.
Qed.

(** The file system [create_wordpress_site] leaves is the one its host
    registrar leaves, started on the materialized site. *)
Lemma create_world (s : string) (w : World) :
  materializable s w = true →
  let w' := world_of (create_wordpress_site s w) in
  fs w' = fs (world_of (host_registrar s (with_fs (materialized s) w))) ∧
  same_env w w'.
Proof.
  intros Hm. rewrite create_split. unfold bind at 1.
  rewrite (site_materializer_ok _ _ Hm). unfold bind.
  destruct (host_registrar_frame s (with_fs (materialized s) w))
    as (He & _).
  destruct (host_registrar s (with_fs (materialized s) w)) as [[] w1|e w1];
    [rewrite announce_ok|]; simpl in *; (split; [done|apply He]).
Qed.

Lemma create_lookup (s : string) (w : World) (q : string) :
  materializable s w = true → hosts_file w ≠ Some q →
  fs (world_of (create_wordpress_site s w)) !! q = materialized s (fs w) !! q.
Proof.
  intros Hm Hq. destruct (create_world s w Hm) as [-> _].
  destruct (host_registrar_frame s (with_fs (materialized s) w))
    as (_ & _ & Hne & _).
  by apply Hne.
Qed.

Lemma create_lookup_site (s : string) (w : World) :
  materializable s w = true →
  fs (world_of (create_wordpress_site s w)) !! s = Some Dir.
Proof.
  intros Hm. destruct (create_world s w Hm) as [-> _].
  destruct (host_registrar_frame s (with_fs (materialized s) w))
    as (_ & _ & _ & Hdir).
  apply Hdir. simpl. apply materialized_lookup_site.
Qed.

Lemma create_lookup_compose (s : string) (w : World) :
  materializable s w = true →
  fs (world_of (create_wordpress_site s w)) !! compose_path s
  = Some (File (compose_text s)).
Proof.
  intros Hm. rewrite create_lookup; [|done|apply hosts_file_ne_compose].
  apply materialized_lookup_compose.
Qed.

Lemma create_lookup_nginx (s : string) (w : World) :
  materializable s w = true →
  fs (world_of (create_wordpress_site s w)) !! nginx_path s
  = Some (File (nginx_text s)).
Proof.
  intros Hm. rewrite create_lookup; [|done|apply hosts_file_ne_nginx].
  apply materialized_lookup_nginx.
Qed.

Lemma materializable_nonempty (s : string) (w : World) :
  materializable s w = true → s ≠ "".
Proof.
  unfold materializable, creatable_dir.
  intros [[Hd _]%andb_true_iff _]%andb_true_iff.
  destruct (stat w s) as [[c|]|] eqn:E; [done| |].
  - by apply stat_Some in E as [? _].
  - apply andb_true_iff in Hd as [Hd _]. by apply bool_decide_eq_true in Hd.
Qed.

Lemma writable_not_denied (w : World) (p : string) :
  writable w p = true → p ∉ denied w.
Proof.
  unfold writable. intros [_ H]%andb_true_iff. by apply bool_decide_eq_true in H.
Qed.

Lemma writable_file (w : World) (p c : string) :
  fs w !! p = Some (File c) → p ∉ denied w → writable w p = true.
Proof.
  intros Hp Hd. unfold writable, isdir, stat.
  destruct (decide (p = "")); [|rewrite Hp]; simpl; by apply bool_decide_eq_true.
Qed.

Lemma creatable_dir_existing (w : World) (s : string) :
  s ≠ "" → fs w !! s = Some Dir → creatable_dir w s = true.
Proof.
  intros Hne Hs. unfold creatable_dir, stat.
  by rewrite decide_False, Hs.
Qed.

(** A site that has been created can be created again. *)
Lemma create_materializable (s : string) (w : World) :
  materializable s w = true →
  materializable s (world_of (create_wordpress_site s w)) = true.
Proof.
  intros Hm.
  pose proof (create_lookup_site s w Hm) as Hs.
  pose proof (create_lookup_compose s w Hm) as Hc.
  pose proof (create_lookup_nginx s w Hm) as Hn.
  pose proof (materializable_nonempty s w Hm) as Hne.
  destruct (create_world s w Hm) as [_ (Hden & _)].
  unfold materializable in *.
  apply andb_true_iff in Hm as [[_ Hc']%andb_true_iff Hn'].
  apply writable_not_denied in Hc', Hn'.
  rewrite creatable_dir_existing by done.
  rewrite (writable_file _ _ _ Hc) by by rewrite Hden.
  by rewrite (writable_file _ _ _ Hn) by by rewrite Hden.
Qed.

(** ** The generated texts *)

Lemma string_app_assoc (a b c : string) : (a +:+ b) +:+ c = a +:+ b +:+ c.
Proof.
  induction a as [|x a IH]; [done|]. rewrite !string_app_cons. by rewrite IH.
Qed.

(** The proxy configuration, cut at the site name. *)
Lemma nginx_text_split (s : string) :
  nginx_text s
  = unlines ["server {"; "    listen 80;"] +:+ "    server_name " +:+ s
    +:+ ";" +:+ nl
    +:+ unlines ["    root /var/www/html;"; "    index index.php;"; "";
                 "    location / {";
                 "        try_files $uri $uri/ /index.php?$args;";
                 "    }"; ""]
    +:+ php_location_block +:+ unlines ["}"].
Proof.
  unfold nginx_text, php_location_block, unlines.
  by rewrite !string_app_assoc.
Qed.

(** [region a b]: the text of the goal is [a], the region looked for,
    and [b], up to the bracketing of the appends. *)
Ltac region a b :=
  lazymatch goal with
  | |- contains ?p ?t = true =>
      replace t with (a +:+ p +:+ b);
      [apply contains_app
      |rewrite nginx_text_split; unfold server_name_line;
       by rewrite ?string_app_assoc]
  end.

Lemma nginx_text_server_name (s : string) :
  contains (server_name_line s) (nginx_text s) = true.
Proof.
  region
    (unlines ["server {"; "    listen 80;"])
    (unlines ["    root /var/www/html;"; "    index index.php;"; "";
              "    location / {";
              "        try_files $uri $uri/ /index.php?$args;";
              "    }"; ""]
     +:+ php_location_block +:+ unlines ["}"]).
Qed.

Lemma nginx_text_server_name_directive (s : string) :
  contains ("server_name " +:+ s +:+ ";") (nginx_text s) = true.
Proof.
  region
    (unlines ["server {"; "    listen 80;"] +:+ "    ")
    (nl +:+
     unlines ["    root /var/www/html;"; "    index index.php;"; "";
              "    location / {";
              "        try_files $uri $uri/ /index.php?$args;";
              "    }"; ""]
     +:+ php_location_block +:+ unlines ["}"]).
Qed.

Lemma nginx_text_php_block (s : string) :
  contains php_location_block (nginx_text s) = true.
Proof.
  region
    (unlines ["server {"; "    listen 80;"] +:+ server_name_line s
     +:+ unlines ["    root /var/www/html;"; "    index index.php;"; "";
                  "    location / {";
                  "        try_files $uri $uri/ /index.php?$args;";
                  "    }"; ""])
    (unlines ["}"]).
Qed.

Lemma compose_text_constant (s1 s2 : string) : compose_text s1 = compose_text s2.
Proof. reflexivity. Qed.

Lemma compose_text_depends_on (s : string) :
  contains wordpress_depends_on_db (compose_text s) = true.
Proof. by vm_compute. Qed.

Lemma compose_text_mounts_nginx_conf (s : string) :
  contains nginx_conf_mount (compose_text s) = true.
Proof. by vm_compute. Qed.

Lemma compose_text_no_server_name (s : string) :
  contains "server_name" (compose_text s) = false.
Proof. by vm_compute. Qed.

(** ** The site materializer *)

(** C5. For every site name [s] the OS accepts as a directory name,
    [create_wordpress_site] leaves [<s>/nginx.conf] holding the proxy
    configuration with the line [server_name s;] and the PHP location block
    that passes requests to [wordpress:9000], and leaves
    [<s>/docker-compose.yml] holding a composition in which the [wordpress]
    service declares [depends_on] the [db] service. *)
Theorem create_writes_nginx_conf_and_compose (s : string) (w : World) :
  materializable s w = true →
  fs (world_of (create_wordpress_site s w)) !! nginx_path s
    = Some (File (nginx_text s))
  ∧ contains (server_name_line s) (nginx_text s) = true
  ∧ contains php_location_block (nginx_text s) = true
  ∧ contains "fastcgi_pass wordpress:9000;" php_location_block = true
  ∧ fs (world_of (create_wordpress_site s w)) !! compose_path s
    = Some (File (compose_text s))
  ∧ contains wordpress_depends_on_db (compose_text s) = true.
Proof.
  intros Hm. split_and!.
  - by apply create_lookup_nginx.
  - apply nginx_text_server_name.
  - apply nginx_text_php_block.
  - by vm_compute.
  - by apply create_lookup_compose.
  - apply compose_text_depends_on.
Qed.

Lemma create_writes_nginx_conf_and_compose_witness :
  materializable "foo" linux_box = true
  ∧ fs (world_of (create_wordpress_site "foo" linux_box)) !! nginx_path "foo"
    = Some (File (nginx_text "foo"))
  ∧ contains (server_name_line "foo") (nginx_text "foo") = true
  ∧ contains php_location_block (nginx_text "foo") = true
  ∧ contains "fastcgi_pass wordpress:9000;" php_location_block = true
  ∧ fs (world_of (create_wordpress_site "foo" linux_box)) !! compose_path "foo"
    = Some (File (compose_text "foo"))
  ∧ contains wordpress_depends_on_db (compose_text "foo") = true.
Proof.
  split; [by vm_compute|].
  apply (create_writes_nginx_conf_and_compose "foo" linux_box).
  by vm_compute.
Defined.

(** C1, as the specification states it, fails: the composition file that
    [create foo] writes has no [server_name foo;] region. *)
Lemma compose_file_lacks_server_name :
  materializable "foo" linux_box = true
  ∧ ¬ ∃ c, fs (world_of (create_wordpress_site "foo" linux_box))
             !! "foo/docker-compose.yml" = Some (File c)
           ∧ contains "server_name foo;" c = true.
Proof.
  split; [by vm_compute|].
  intros (c & Hc & Hin).
  change "foo/docker-compose.yml" with (compose_path "foo") in Hc.
  rewrite create_lookup_compose in Hc by by vm_compute.
  injection Hc as <-. by vm_compute in Hin.
Qed.

(** C1, amended. For every site name [s] the OS accepts as a directory
    name, [create_wordpress_site] leaves [<s>/docker-compose.yml] holding a
    composition text with no [server_name] region at all; the composition
    mounts [./nginx.conf] as the proxy's configuration, and it is
    [<s>/nginx.conf] that holds the site name as the proxy's server name,
    [server_name s;]. *)
Theorem create_templates_server_name_in_nginx_conf (s : string) (w : World) :
  materializable s w = true →
  fs (world_of (create_wordpress_site s w)) !! compose_path s
    = Some (File (compose_text s))
  ∧ contains "server_name" (compose_text s) = false
  ∧ contains nginx_conf_mount (compose_text s) = true
  ∧ fs (world_of (create_wordpress_site s w)) !! nginx_path s
    = Some (File (nginx_text s))
  ∧ contains ("server_name " +:+ s +:+ ";") (nginx_text s) = true.
Proof.
  intros Hm. split_and!.
  - by apply create_lookup_compose.
  - apply compose_text_no_server_name.
  - apply compose_text_mounts_nginx_conf.
  - by apply create_lookup_nginx.
  - apply nginx_text_server_name_directive.
Qed.

Lemma create_templates_server_name_in_nginx_conf_witness :
  materializable "foo" linux_box = true
  ∧ fs (world_of (create_wordpress_site "foo" linux_box)) !! compose_path "foo"
    = Some (File (compose_text "foo"))
  ∧ contains "server_name" (compose_text "foo") = false
  ∧ contains nginx_conf_mount (compose_text "foo") = true
  ∧ fs (world_of (create_wordpress_site "foo" linux_box)) !! nginx_path "foo"
    = Some (File (nginx_text "foo"))
  ∧ contains ("server_name " +:+ "foo" +:+ ";") (nginx_text "foo") = true.
Proof.
  split; [by vm_compute|].
  apply (create_templates_server_name_in_nginx_conf "foo" linux_box).
  by vm_compute.
Defined.

(** C8. For any two site names, the [docker-compose.yml] files that
    [create_wordpress_site] writes hold the same text: the composition is a
    constant into which the site name is not substituted. *)
Theorem compose_file_same_for_all_sites (s1 s2 : string) (w1 w2 : World) :
  materializable s1 w1 = true → materializable s2 w2 = true →
  compose_text s1 = compose_text s2
  ∧ ∃ c, fs (world_of (create_wordpress_site s1 w1)) !! compose_path s1
           = Some (File c)
         ∧ fs (world_of (create_wordpress_site s2 w2)) !! compose_path s2
           = Some (File c).
Proof.
  intros H1 H2. split; [apply compose_text_constant|].
  exists (compose_text s1). split; [by apply create_lookup_compose|].
  rewrite (compose_text_constant s1 s2). by apply create_lookup_compose.
Qed.

Lemma compose_file_same_for_all_sites_witness :
  materializable "foo" linux_box = true
  ∧ materializable "bar.example" failing_compose_box = true
  ∧ compose_text "foo" = compose_text "bar.example"
  ∧ ∃ c, fs (world_of (create_wordpress_site "foo" linux_box))
           !! compose_path "foo" = Some (File c)
         ∧ fs (world_of (create_wordpress_site "bar.example" failing_compose_box))
           !! compose_path "bar.example" = Some (File c).
Proof.
  split; [by vm_compute|]. split; [by vm_compute|].
  apply (compose_file_same_for_all_sites "foo" "bar.example"
           linux_box failing_compose_box); by vm_compute.
Defined.

Lemma materializable_materialized (s : string) (w : World) :
  materializable s w = true →
  materializable s (with_fs (materialized s) w) = true.
Proof.
  intros Hm. pose proof (materializable_nonempty s w Hm) as Hne.
  unfold materializable in *.
  apply andb_true_iff in Hm as [[_ Hc]%andb_true_iff Hn].
  apply writable_not_denied in Hc, Hn.
  rewrite creatable_dir_existing;
    [|done|apply materialized_lookup_site].
  rewrite (writable_file _ _ (compose_text s));
    [|apply materialized_lookup_compose|done].
  by rewrite (writable_file _ _ (nginx_text s));
    [|apply materialized_lookup_nginx|done].
Qed.

(** The materializer is idempotent on the whole world. *)
Lemma site_materializer_twice (s : string) (w : World) :
  materializable s w = true →
  ∃ wm, site_materializer s w = Ok tt wm ∧ site_materializer s wm = Ok tt wm.
Proof.
  intros Hm. exists (with_fs (materialized s) w).
  split; [by apply site_materializer_ok|].
  rewrite site_materializer_ok by by apply materializable_materialized.
  f_equal. apply with_fs_id. simpl. apply materialized_fixed.
  - apply materialized_lookup_site.
  - apply materialized_lookup_compose.
  - apply materialized_lookup_nginx.
Qed.

(** C7. The site materializer is idempotent on the site directory and its
    two files: on a site that [create_wordpress_site] has set up, directory
    creation returns without an error, and a second run overwrites both
    files with the text they already hold, so that it changes no path of the
    file system other than the hosts file. *)
Theorem site_materializer_idempotent (s : string) (w : World) :
  materializable s w = true →
  let w1 := world_of (create_wordpress_site s w) in
  let w2 := world_of (create_wordpress_site s w1) in
  makedirs s w1 = Ok tt w1
  ∧ fs w1 !! compose_path s = Some (File (compose_text s))
  ∧ fs w1 !! nginx_path s = Some (File (nginx_text s))
  ∧ fs w2 !! compose_path s = fs w1 !! compose_path s
  ∧ fs w2 !! nginx_path s = fs w1 !! nginx_path s
  ∧ (∀ q, hosts_file w ≠ Some q → fs w2 !! q = fs w1 !! q)
  ∧ ∃ wm, site_materializer s w = Ok tt wm
          ∧ site_materializer s wm = Ok tt wm.
Proof.
  intros Hm w1 w2.
  pose proof (create_lookup_site s w Hm) as Hs.
  pose proof (create_lookup_compose s w Hm) as Hc.
  pose proof (create_lookup_nginx s w Hm) as Hn.
  pose proof (create_materializable s w Hm) as Hm1.
  pose proof (materializable_nonempty s w Hm) as Hne.
  destruct (create_world s w Hm) as [_ Henv].
  fold w1 in Hs, Hc, Hn, Hm1, Henv.
  assert (∀ q, hosts_file w ≠ Some q → fs w2 !! q = fs w1 !! q) as Hframe.
  { intros q Hq. unfold w2. rewrite create_lookup; [|done|].
    - by rewrite materialized_fixed.
    - by rewrite (same_env_hosts_file _ _ Henv). }
  split_and!; try done.
  - apply makedirs_existing. by apply isdir_true.
  - apply Hframe, hosts_file_ne_compose.
  - apply Hframe, hosts_file_ne_nginx.
  - by apply site_materializer_twice.
Qed.

Lemma site_materializer_idempotent_witness :
  materializable "foo" stale_site_box = true
  ∧ let w1 := world_of (create_wordpress_site "foo" stale_site_box) in
    let w2 := world_of (create_wordpress_site "foo" w1) in
    makedirs "foo" w1 = Ok tt w1
    ∧ fs w1 !! compose_path "foo" = Some (File (compose_text "foo"))
    ∧ fs w1 !! nginx_path "foo" = Some (File (nginx_text "foo"))
    ∧ fs w2 !! compose_path "foo" = fs w1 !! compose_path "foo"
    ∧ fs w2 !! nginx_path "foo" = fs w1 !! nginx_path "foo"
    ∧ (∀ q, hosts_file stale_site_box ≠ Some q → fs w2 !! q = fs w1 !! q)
    ∧ ∃ wm, site_materializer "foo" stale_site_box = Ok tt wm
            ∧ site_materializer "foo" wm = Ok tt wm.
Proof.
  split; [by vm_compute|].
  apply (site_materializer_idempotent "foo" stale_site_box).
  by vm_compute.
Defined.

(** ** The host registrar *)

Lemma add_host_entry_unix_ok (s : string) (w : World) (h : string) :
  fs w !! "/etc/hosts" = Some (File h) → "/etc/hosts" ∉ denied w →
  add_host_entry_unix s w
  = Ok tt (with_fs (<["/etc/hosts" := File (h +:+ host_entry s)]>) w).
Proof.
  intros Hh Hd. unfold add_host_entry_unix, append_file, stat. simpl.
  rewrite Hh. by rewrite decide_False.
Qed.

Lemma hosts_not_site (s : string) (w : World) (h : string) :
  materializable s w = true → fs w !! "/etc/hosts" = Some (File h) →
  s ≠ "/etc/hosts".
Proof.
  unfold materializable, creatable_dir, stat.
  intros [[Hd _]%andb_true_iff _]%andb_true_iff Hh ->.
  simpl in Hd. by rewrite Hh in Hd.
Qed.

Lemma materialized_lookup_hosts (s : string) (m : gmap string node) :
  s ≠ "/etc/hosts" → materialized s m !! "/etc/hosts" = m !! "/etc/hosts".
Proof.
  intros Hs. unfold materialized. rewrite !lookup_insert_ne; [done..| |].
  - intros H. apply (f_equal last_char) in H.
    by rewrite last_char_compose_path in H.
  - intros H. apply (f_equal last_char) in H.
    by rewrite last_char_nginx_path in H.
Qed.

(** On a platform other than Windows with a writable hosts file,
    [create_wordpress_site] returns, and this is the world it leaves. *)
Lemma create_unix_ok (s : string) (w : World) (h : string) :
  system w ≠ "Windows" →
  fs w !! "/etc/hosts" = Some (File h) → "/etc/hosts" ∉ denied w →
  materializable s w = true →
  create_wordpress_site s w
  = Ok tt
      (with_browser (λ urls, urls ++ ["http://" +:+ s])
         (with_stdout
            (λ out, out ++ [created_message s; wait_message; opening_message])
            (with_fs (<["/etc/hosts" := File (h +:+ host_entry s)]>)
               (with_fs (materialized s) w)))).
Proof.
  intros Hsys Hh Hd Hm. rewrite create_split. unfold bind at 1.
  rewrite (site_materializer_ok _ _ Hm). unfold bind.
  unfold host_registrar, platform_system, bind. simpl.
  rewrite decide_False by done.
  rewrite (add_host_entry_unix_ok _ _ h); [by rewrite announce_ok| |done].
  simpl. rewrite materialized_lookup_hosts; [done|].
  by apply (hosts_not_site s w h).
Qed.

(** C6. On a platform other than Windows, host-entry registration appends
    exactly the line [127.0.0.1 s] and its newline to the hosts file and
    changes nothing else; it does not look for an earlier entry, so
    creating the same site twice leaves the line twice, one after the
    other, at the end of the hosts file. *)
Theorem host_entry_appended_without_deduplication
    (s : string) (w : World) (h : string) :
  system w ≠ "Windows" →
  fs w !! "/etc/hosts" = Some (File h) → "/etc/hosts" ∉ denied w →
  materializable s w = true →
  add_host_entry_unix s w
    = Ok tt (with_fs (<["/etc/hosts" := File (h +:+ "127.0.0.1 " +:+ s +:+ nl)]>) w)
  ∧ ∃ w1 w2,
      create_wordpress_site s w = Ok tt w1
      ∧ create_wordpress_site s w1 = Ok tt w2
      ∧ fs w1 !! "/etc/hosts" = Some (File (h +:+ "127.0.0.1 " +:+ s +:+ nl))
      ∧ fs w2 !! "/etc/hosts"
        = Some (File ((h +:+ "127.0.0.1 " +:+ s +:+ nl)
                      +:+ "127.0.0.1 " +:+ s +:+ nl)).
Proof.
  intros Hsys Hh Hd Hm. split; [by apply add_host_entry_unix_ok|].
  pose proof (create_unix_ok s w h Hsys Hh Hd Hm) as H1.
  pose proof (create_materializable s w Hm) as Hm1.
  rewrite H1 in Hm1. simpl in Hm1.
  eexists _, _. split; [exact H1|]. split.
  - apply (create_unix_ok s _ (h +:+ host_entry s)); try done.
    simpl. apply lookup_insert_eq.
  - split; simpl; apply lookup_insert_eq.
Qed.

Lemma host_entry_appended_without_deduplication_witness :
  system linux_box ≠ "Windows"
  ∧ fs linux_box !! "/etc/hosts" = Some (File ("127.0.0.1 localhost" +:+ nl))
  ∧ ("/etc/hosts" ∉ denied linux_box)
  ∧ materializable "foo" linux_box = true
  ∧ add_host_entry_unix "foo" linux_box
    = Ok tt (with_fs (<["/etc/hosts" :=
                File (("127.0.0.1 localhost" +:+ nl)
                      +:+ "127.0.0.1 " +:+ "foo" +:+ nl)]>) linux_box)
  ∧ ∃ w1 w2,
      create_wordpress_site "foo" linux_box = Ok tt w1
      ∧ create_wordpress_site "foo" w1 = Ok tt w2
      ∧ fs w1 !! "/etc/hosts"
        = Some (File (("127.0.0.1 localhost" +:+ nl)
                      +:+ "127.0.0.1 " +:+ "foo" +:+ nl))
      ∧ fs w2 !! "/etc/hosts"
        = Some (File ((("127.0.0.1 localhost" +:+ nl)
                       +:+ "127.0.0.1 " +:+ "foo" +:+ nl)
                      +:+ "127.0.0.1 " +:+ "foo" +:+ nl)).
Proof.
  assert (system linux_box ≠ "Windows") as Hsys by by vm_compute.
  assert ("/etc/hosts" ∉ denied linux_box) as Hd by (simpl; set_solver).
  split; [done|]. split; [by vm_compute|]. split; [done|].
  split; [by vm_compute|].
  apply (host_entry_appended_without_deduplication "foo" linux_box
           ("127.0.0.1 localhost" +:+ nl)); try done; by vm_compute.
Defined.

(** ** The lifecycle driver *)

(** Without its working directory a child process is not started. *)
Lemma subprocess_run_without_cwd (args : list string) (d : string)
    (check : bool) (w : World) :
  isdir w d = false →
  ∃ e, subprocess_run args (Some d) check w = Raise e w
       ∧ (e = FileNotFoundError d ∨ e = NotADirectoryError d).
Proof.
  unfold isdir, subprocess_run. intros Hd.
  destruct (stat w d) as [[c|]|]; [| done |].
  - eexists. split; [done|]. by right.
  - destruct (decide (system w = "Windows")); eexists; (split; [done|]);
      [by right|by left].
Qed.

(** Once the child process has been started, its exit status is returned
    and, without [check], nothing is made of it. *)
Lemma subprocess_run_unchecked (args : list string) (d : string) (w : World) :
  isdir w d = true → hd "" args ∈ on_path w →
  subprocess_run args (Some d) false w = Ok (returncode w args (Some d)) w.
Proof.
  unfold isdir, subprocess_run. intros Hd Hexe.
  destruct (stat w d) as [[c|]|]; try done. by rewrite decide_True.
Qed.

(** C9. For every site name whose directory does not exist, [enable] and
    [disable] end in an uncaught error of the child-process call
    ([FileNotFoundError] or [NotADirectoryError] for the working directory)
    and leave the world as it was: no success message is printed. *)
Theorem enable_disable_raise_without_directory (s : string) (w : World) :
  isdir w s = false →
  (∃ e, enable_wordpress_site s w = Raise e w
        ∧ (e = FileNotFoundError s ∨ e = NotADirectoryError s))
  ∧ (∃ e, disable_wordpress_site s w = Raise e w
          ∧ (e = FileNotFoundError s ∨ e = NotADirectoryError s)).
Proof.
  intros Hd. split.
  - destruct (subprocess_run_without_cwd ["docker-compose"; "up"; "-d"]
                s false w Hd) as (e & He & Hk).
    exists e. split; [|done]. unfold enable_wordpress_site, bind. by rewrite He.
  - destruct (subprocess_run_without_cwd ["docker-compose"; "down"]
                s false w Hd) as (e & He & Hk).
    exists e. split; [|done]. unfold disable_wordpress_site, bind. by rewrite He.
Qed.

Lemma enable_disable_raise_without_directory_witness :
  isdir linux_box "ghost" = false
  ∧ (∃ e, enable_wordpress_site "ghost" linux_box = Raise e linux_box
          ∧ (e = FileNotFoundError "ghost" ∨ e = NotADirectoryError "ghost"))
  ∧ (∃ e, disable_wordpress_site "ghost" linux_box = Raise e linux_box
          ∧ (e = FileNotFoundError "ghost" ∨ e = NotADirectoryError "ghost")).
Proof.
  split; [by vm_compute|].
  apply (enable_disable_raise_without_directory "ghost" linux_box).
  by vm_compute.
Defined.

(** C4, as the specification states it, fails: with the directory [foo] in
    place but no [docker-compose] executable to start, [enable foo] raises
    and prints nothing. *)
Lemma enable_silent_without_orchestrator :
  isdir no_compose_box "foo" = true
  ∧ enable_wordpress_site "foo" no_compose_box
    = Raise (FileNotFoundError "docker-compose") no_compose_box
  ∧ enabled_message "foo"
    ∉ stdout (world_of (enable_wordpress_site "foo" no_compose_box)).
Proof.
  split; [by vm_compute|]. split; [by vm_compute|].
  assert (stdout (world_of (enable_wordpress_site "foo" no_compose_box)) = [])
    as -> by by vm_compute.
  apply not_elem_of_nil.
Qed.

(** C4, amended. For every site name whose directory exists, and provided
    the [docker-compose] executable can be started, [enable] and [disable]
    print their success message whatever exit status the orchestrator
    finishes with: the status is never inspected. *)
Theorem enable_disable_report_success_whatever_exit_status
    (s : string) (w : World) :
  isdir w s = true → "docker-compose" ∈ on_path w →
  enable_wordpress_site s w
    = Ok tt (with_stdout (λ out, out ++ [enabled_message s]) w)
  ∧ disable_wordpress_site s w
    = Ok tt (with_stdout (λ out, out ++ [disabled_message s]) w).
Proof.
  intros Hd Hexe. unfold enable_wordpress_site, disable_wordpress_site, bind.
  by rewrite !subprocess_run_unchecked.
Qed.

Lemma enable_disable_report_success_whatever_exit_status_witness :
  isdir failing_compose_box "foo" = true
  ∧ "docker-compose" ∈ on_path failing_compose_box
  ∧ returncode failing_compose_box ["docker-compose"; "up"; "-d"] (Some "foo") = 1
  ∧ enable_wordpress_site "foo" failing_compose_box
    = Ok tt (with_stdout (λ out, out ++ [enabled_message "foo"])
               failing_compose_box)
  ∧ disable_wordpress_site "foo" failing_compose_box
    = Ok tt (with_stdout (λ out, out ++ [disabled_message "foo"])
               failing_compose_box).
Proof.
  assert ("docker-compose" ∈ on_path failing_compose_box) as Hexe
    by (simpl; set_solver).
  split; [by vm_compute|]. split; [done|]. split; [done|].
  apply (enable_disable_report_success_whatever_exit_status
           "foo" failing_compose_box); [by vm_compute|done].
Defined.

(** The call of the orchestrator in [delete_wordpress_site] stands before
    the [try] block: without the site directory it raises, and the handler
    below it is never reached. *)
Lemma delete_raises_without_directory (s : string) (w : World) :
  isdir w s = false →
  ∃ e, delete_wordpress_site s w = Raise e w
       ∧ (e = FileNotFoundError s ∨ e = NotADirectoryError s).
Proof.
  intros Hd.
  destruct (subprocess_run_without_cwd ["docker-compose"; "down"]
              s false w Hd) as (e & He & Hk).
  exists e. split; [|done]. unfold delete_wordpress_site, bind. by rewrite He.
Qed.

(** With the directory in place and the orchestrator started, [delete]
    removes the directory with all below it and reports the deletion. *)
Lemma delete_existing (s : string) (w : World) :
  isdir w s = true → "docker-compose" ∈ on_path w →
  delete_wordpress_site s w
  = Ok tt (with_stdout (λ out, out ++ [deleted_message s])
             (with_fs (filter (λ kv, within s kv.1 = false)) w)).
Proof.
  intros Hd Hexe. unfold delete_wordpress_site, bind.
  rewrite subprocess_run_unchecked by done.
  unfold try_except, bind, rmtree. unfold isdir in Hd. simpl.
  by destruct (stat w s) as [[c|]|].
Qed.

(** Whatever the world, [delete] prints at most its message of success:
    the handler that reports an absent site is dead code. *)
Lemma delete_never_reports_absence (s : string) (w : World) :
  stdout (world_of (delete_wordpress_site s w)) = stdout w
  ∨ stdout (world_of (delete_wordpress_site s w))
    = stdout w ++ [deleted_message s].
Proof.
  destruct (isdir w s) eqn:Hd.
  - destruct (decide ("docker-compose" ∈ on_path w)) as [Hexe|Hexe].
    + right. by rewrite delete_existing.
    + left. unfold delete_wordpress_site, bind, subprocess_run.
      unfold isdir in Hd. destruct (stat w s) as [[c|]|]; try done.
      simpl. by rewrite decide_False.
  - left. by destruct (delete_raises_without_directory s w Hd) as (e & -> & _).
Qed.

(** C2. Where the specification has [delete] report an absent site and
    return, the code does not: [delete ghost], for a site whose directory
    does not exist, ends in an uncaught [FileNotFoundError] raised by the
    orchestrator call before the [try] block, and the message that the site
    does not exist is not printed. *)
Theorem delete_absent_site_raises :
  isdir linux_box "ghost" = false
  ∧ delete_wordpress_site "ghost" linux_box
    = Raise (FileNotFoundError "ghost") linux_box
  ∧ absent_message "ghost"
    ∉ stdout (world_of (delete_wordpress_site "ghost" linux_box)).
Proof.
  split; [by vm_compute|]. split; [by vm_compute|].
  assert (stdout (world_of (delete_wordpress_site "ghost" linux_box)) = [])
    as -> by by vm_compute.
  apply not_elem_of_nil.
Qed.

(** ** The dependency checker *)

(** A version query: what [subprocess.run(..., check=True)] does to it. *)
Lemma version_query (exe : string) (w : World) :
  subprocess_run [exe; "--version"] None true w
  = if decide (exe ∈ on_path w) then
      if returncode w [exe; "--version"] None =? 0
      then Ok 0 w
      else Raise (CalledProcessError [exe; "--version"]
                    (returncode w [exe; "--version"] None)) w
    else Raise (FileNotFoundError exe) w.
Proof.
  unfold subprocess_run. simpl. case_decide; [|done].
  destruct (Z.eqb_spec (returncode w [exe; "--version"] None) 0) as [->|];
    done.
Qed.

(** Both tools answer their version query with status 0: the checker
    returns, silently. *)
Lemma check_dependencies_ok (w : World) :
  "docker" ∈ on_path w → "docker-compose" ∈ on_path w →
  returncode w ["docker"; "--version"] None = 0 →
  returncode w ["docker-compose"; "--version"] None = 0 →
  check_dependencies w = Ok tt w.
Proof.
  intros Hd Hc Hrd Hrc. unfold check_dependencies, try_except, bind.
  rewrite version_query, decide_True, Hrd by done. simpl.
  by rewrite version_query, decide_True, Hrc by done.
Qed.

(** A version query that exits with another status: the diagnostic, then
    [sys.exit(1)]. *)
Lemma check_dependencies_docker_fails (w : World) :
  "docker" ∈ on_path w →
  returncode w ["docker"; "--version"] None ≠ 0 →
  check_dependencies w
  = Raise (SystemExit 1) (with_stdout (λ out, out ++ [docker_missing_message]) w).
Proof.
  intros Hd Hrd. unfold check_dependencies, try_except, bind.
  rewrite version_query, decide_True by done.
  by destruct (Z.eqb_spec (returncode w ["docker"; "--version"] None) 0).
Qed.

Lemma check_dependencies_compose_fails (w : World) :
  "docker" ∈ on_path w → returncode w ["docker"; "--version"] None = 0 →
  "docker-compose" ∈ on_path w →
  returncode w ["docker-compose"; "--version"] None ≠ 0 →
  check_dependencies w
  = Raise (SystemExit 1) (with_stdout (λ out, out ++ [compose_missing_message]) w).
Proof.
  intros Hd Hrd Hc Hrc. unfold check_dependencies, try_except, bind.
  rewrite version_query, decide_True, Hrd by done. simpl.
  rewrite version_query, decide_True by done.
  by destruct (Z.eqb_spec (returncode w ["docker-compose"; "--version"] None) 0).
Qed.

(** A tool that cannot be started at all: [FileNotFoundError], which the
    handlers for [CalledProcessError] do not catch. *)
Lemma check_dependencies_docker_missing (w : World) :
  "docker" ∉ on_path w →
  check_dependencies w = Raise (FileNotFoundError "docker") w.
Proof.
  intros Hd. unfold check_dependencies, try_except, bind.
  by rewrite version_query, decide_False.
Qed.

Lemma check_dependencies_compose_missing (w : World) :
  "docker" ∈ on_path w → returncode w ["docker"; "--version"] None = 0 →
  "docker-compose" ∉ on_path w →
  check_dependencies w = Raise (FileNotFoundError "docker-compose") w.
Proof.
  intros Hd Hrd Hc. unfold check_dependencies, try_except, bind.
  rewrite version_query, decide_True, Hrd by done. simpl.
  by rewrite version_query, decide_False.
Qed.

(** The checker changes nothing when it returns. *)
Lemma check_dependencies_returns (w w' : World) :
  check_dependencies w = Ok tt w' → w' = w.
Proof.
  unfold check_dependencies, try_except, bind. rewrite version_query.
  destruct (decide ("docker" ∈ on_path w)); [|done].
  destruct (returncode w ["docker"; "--version"] None =? 0); [|done].
  simpl. rewrite version_query.
  destruct (decide ("docker-compose" ∈ on_path w)); [|done].
  destruct (returncode w ["docker-compose"; "--version"] None =? 0); [|done].
  simpl. congruence.
Qed.

(** C3. Where the specification has the checker print its diagnostic and
    exit also for a tool that cannot be started, the code does not: on a
    machine without the [docker] executable the checker ends in an uncaught
    [FileNotFoundError], and its diagnostic that Docker is not installed is
    not printed. *)
Theorem check_dependencies_missing_executable_uncaught :
  ("docker" ∉ on_path no_docker_box)
  ∧ check_dependencies no_docker_box
    = Raise (FileNotFoundError "docker") no_docker_box
  ∧ docker_missing_message
    ∉ stdout (world_of (check_dependencies no_docker_box)).
Proof.
  assert ("docker" ∉ on_path no_docker_box) as Hd by (simpl; set_solver).
  split; [done|]. rewrite check_dependencies_docker_missing by done.
  split; [done|]. apply not_elem_of_nil.
Qed.

(** ** The create run *)

(** The materializer prints nothing, opens no browser and stays on its
    platform. *)
Lemma site_materializer_quiet (s : string) (w : World) :
  stdout (world_of (site_materializer s w)) = stdout w
  ∧ browser (world_of (site_materializer s w)) = browser w
  ∧ system (world_of (site_materializer s w)) = system w.
Proof.
  unfold site_materializer, bind.
  assert (∀ p d v, stdout (world_of (write_file p d v)) = stdout v
                   ∧ browser (world_of (write_file p d v)) = browser v
                   ∧ system (world_of (write_file p d v)) = system v) as Hw.
  { intros p d v. unfold write_file.
    destruct (stat v p) as [[c|]|]; repeat case_decide; done. }
  assert (stdout (world_of (makedirs s w)) = stdout w
          ∧ browser (world_of (makedirs s w)) = browser w
          ∧ system (world_of (makedirs s w)) = system w) as (Ho & Hb & Hs).
  { unfold makedirs.
    destruct (stat w s) as [[c|]|]; repeat case_decide; done. }
  destruct (makedirs s w) as [[] w1|]; [|done]. simpl in Ho, Hb, Hs.
  destruct (Hw (compose_path s) (compose_text s) w1) as (Ho1 & Hb1 & Hs1).
  destruct (write_file (compose_path s) _ w1) as [[] w2|];
    simpl in *; [|by rewrite Ho1, Hb1, Hs1].
  destruct (Hw (nginx_path s) (nginx_text s) w2) as (Ho2 & Hb2 & Hs2).
  by rewrite Ho2, Hb2, Hs2, Ho1, Hb1, Hs1.
Qed.

(** What the host registrar prints: nothing, except on Windows. *)
Lemma host_registrar_stdout (s : string) (w : World) :
  ∃ pre, stdout (world_of (host_registrar s w)) = stdout w ++ pre
         ∧ (system w ≠ "Windows" → pre = []).
Proof.
  unfold host_registrar, platform_system, bind.
  destruct (decide (system w = "Windows")) as [Hsys|Hsys].
  - unfold add_host_entry_windows, is_user_an_admin, bind.
    destruct (is_admin w); simpl; [|by eexists].
    unfold try_except, winreg_hosts_path, bind.
    destruct (win_hosts_dir w) as [d|]; simpl; [|by eexists].
    destruct (append_file_frame (d +:+ "hosts") (host_entry s) w)
      as (_ & Hout & _).
    destruct (append_file (d +:+ "hosts") (host_entry s) w) as [[] w1|e w1];
      simpl in *; [rewrite Hout; by eexists|].
    destruct e; simpl; rewrite Hout; try (by eexists).
    exists []. by rewrite app_nil_r.
  - unfold add_host_entry_unix.
    destruct (append_file_frame "/etc/hosts" (host_entry s) w)
      as (_ & Hout & _).
    exists []. by rewrite app_nil_r.
Qed.

(** A run of [create_wordpress_site] that returns has printed its three
    messages last and has opened the site once. *)
Lemma create_returns (s : string) (w w1 : World) :
  create_wordpress_site s w = Ok tt w1 →
  browser w1 = browser w ++ ["http://" +:+ s]
  ∧ ∃ pre, stdout w1
           = stdout w ++ pre
             ++ [created_message s; wait_message; opening_message]
           ∧ (system w ≠ "Windows" → pre = []).
Proof.
  rewrite create_split. unfold bind.
  destruct (site_materializer_quiet s w) as (Hout & Hb & Hsys).
  destruct (site_materializer s w) as [[] wm|]; [|done].
  simpl in Hout, Hb, Hsys.
  destruct (host_registrar_frame s wm) as (_ & Hb' & _).
  destruct (host_registrar_stdout s wm) as (pre & Hout' & Hpre).
  destruct (host_registrar s wm) as [[] wr|]; [|done].
  simpl in Hb', Hout'.
  rewrite announce_ok. intros [= <-]. simpl. rewrite Hb', Hb. split; [done|].
  exists pre. rewrite Hout', Hout, <- app_assoc. split; [done|].
  by rewrite <- Hsys.
Qed.

(** C10. For every site name [s], a [create] run that returns has opened
    [http://s] in the browser twice and has printed the "Please wait" and
    "Opening the site" messages twice: once inside
    [create_wordpress_site], and once more in the dispatch after it. *)
Theorem create_run_opens_site_twice (s : string) (w w' : World) :
  main s "create" w = Ok tt w' →
  ∃ w1 pre,
    create_wordpress_site s w = Ok tt w1
    ∧ browser w1 = browser w ++ ["http://" +:+ s]
    ∧ stdout w1
      = stdout w ++ pre ++ [created_message s; wait_message; opening_message]
    ∧ browser w' = browser w1 ++ ["http://" +:+ s]
    ∧ stdout w' = stdout w1 ++ [wait_message; opening_message]
    ∧ browser w' = browser w ++ ["http://" +:+ s; "http://" +:+ s]
    ∧ (system w ≠ "Windows" → pre = []).
Proof.
  unfold main. rewrite decide_True by (unfold choices; set_solver).
  rewrite decide_True by done. unfold bind at 1.
  destruct (check_dependencies w) as [[] w0|] eqn:Hcheck; [|done].
  apply check_dependencies_returns in Hcheck as ->. unfold bind at 1.
  destruct (create_wordpress_site s w) as [[] w1|] eqn:Hcreate; [|done].
  destruct (create_returns s w w1 Hcreate) as (Hb & pre & Hout & Hpre).
  unfold bind, print, webbrowser_open. simpl. intros [= <-]. simpl.
  exists w1, pre. rewrite Hb, <- !app_assoc. by split_and!.
Qed.

Lemma create_run_opens_site_twice_witness :
  main "foo" "create" linux_box
    = Ok tt (world_of (main "foo" "create" linux_box))
  ∧ ∃ w1 pre,
      create_wordpress_site "foo" linux_box = Ok tt w1
      ∧ browser w1 = browser linux_box ++ ["http://" +:+ "foo"]
      ∧ stdout w1
        = stdout linux_box ++ pre
          ++ [created_message "foo"; wait_message; opening_message]
      ∧ browser (world_of (main "foo" "create" linux_box))
        = browser w1 ++ ["http://" +:+ "foo"]
      ∧ stdout (world_of (main "foo" "create" linux_box))
        = stdout w1 ++ [wait_message; opening_message]
      ∧ browser (world_of (main "foo" "create" linux_box))
        = browser linux_box ++ ["http://" +:+ "foo"; "http://" +:+ "foo"]
      ∧ (system linux_box ≠ "Windows" → pre = []).
Proof.
  split; [by vm_compute|].
  apply (create_run_opens_site_twice "foo" linux_box
           (world_of (main "foo" "create" linux_box))).
  by vm_compute.
Defined.

(** On a platform other than Windows, these conditions make a [create] run
    return: both tools answer their version query with status 0, the hosts
    file is a writable regular file, and the site can be materialized. *)
Lemma create_run_returns (s : string) (w : World) (h : string) :
  "docker" ∈ on_path w → "docker-compose" ∈ on_path w →
  returncode w ["docker"; "--version"] None = 0 →
  returncode w ["docker-compose"; "--version"] None = 0 →
  system w ≠ "Windows" →
  fs w !! "/etc/hosts" = Some (File h) → "/etc/hosts" ∉ denied w →
  materializable s w = true →
  ∃ w', main s "create" w = Ok tt w'.
Proof.
  intros Hd Hc Hrd Hrc Hsys Hh Hden Hm.
  unfold main. rewrite decide_True by (unfold choices; set_solver).
  rewrite decide_True by done. unfold bind at 1.
  rewrite check_dependencies_ok by done. unfold bind at 1.
  rewrite (create_unix_ok s w h) by done. by eexists.
Qed.

(** * Further properties of the script *)

(** ** More on the dependency checker *)

(** X1. When the [docker] executable starts but its version query exits
    with a non-zero status, the checker prints the Docker diagnostic and
    raises [SystemExit(1)]; nothing else of the world changes, whatever
    the state of Docker Compose. *)
Theorem checker_exits_on_failing_docker (w : World) :
  "docker" ∈ on_path w →
  returncode w ["docker"; "--version"] None ≠ 0 →
  check_dependencies w
  = Raise (SystemExit 1)
      (with_stdout (λ out, out ++ [docker_missing_message]) w).
Proof. apply check_dependencies_docker_fails. Qed.

Lemma checker_exits_on_failing_docker_witness :
  "docker" ∈ on_path broken_docker_box
  ∧ returncode broken_docker_box ["docker"; "--version"] None ≠ 0
  ∧ check_dependencies broken_docker_box
    = Raise (SystemExit 1)
        (with_stdout (λ out, out ++ [docker_missing_message])
           broken_docker_box).
Proof.
  assert ("docker" ∈ on_path broken_docker_box) as Hd by (simpl; set_solver).
  assert (returncode broken_docker_box ["docker"; "--version"] None ≠ 0)
    as Hrc by done.
  split; [done|]. split; [done|].
  by apply (checker_exits_on_failing_docker broken_docker_box).
Defined.

(** X2. When Docker answers its version query with status 0 and the
    [docker-compose] executable starts but exits with a non-zero status,
    the checker prints the Docker Compose diagnostic, and only that one,
    and raises [SystemExit(1)]. *)
Theorem checker_exits_on_failing_compose (w : World) :
  "docker" ∈ on_path w → returncode w ["docker"; "--version"] None = 0 →
  "docker-compose" ∈ on_path w →
  returncode w ["docker-compose"; "--version"] None ≠ 0 →
  check_dependencies w
  = Raise (SystemExit 1)
      (with_stdout (λ out, out ++ [compose_missing_message]) w).
Proof. apply check_dependencies_compose_fails. Qed.

Lemma checker_exits_on_failing_compose_witness :
  "docker" ∈ on_path broken_compose_box
  ∧ returncode broken_compose_box ["docker"; "--version"] None = 0
  ∧ "docker-compose" ∈ on_path broken_compose_box
  ∧ returncode broken_compose_box ["docker-compose"; "--version"] None ≠ 0
  ∧ check_dependencies broken_compose_box
    = Raise (SystemExit 1)
        (with_stdout (λ out, out ++ [compose_missing_message])
           broken_compose_box).
Proof.
  assert ("docker" ∈ on_path broken_compose_box) as Hd by (simpl; set_solver).
  assert ("docker-compose" ∈ on_path broken_compose_box) as Hc
    by (simpl; set_solver).
  assert (returncode broken_compose_box ["docker-compose"; "--version"] None
          ≠ 0) as Hrc by done.
  split; [done|]. split; [done|]. split; [done|]. split; [done|].
  by apply (checker_exits_on_failing_compose broken_compose_box).
Defined.

(** X3. The checker returns exactly when both executables start and both
    version queries exit with status 0, and then it has changed nothing:
    no output, no file, no browser. *)
Theorem checker_returns_iff (w w' : World) :
  check_dependencies w = Ok tt w'
  ↔ "docker" ∈ on_path w
    ∧ returncode w ["docker"; "--version"] None = 0
    ∧ "docker-compose" ∈ on_path w
    ∧ returncode w ["docker-compose"; "--version"] None = 0
    ∧ w' = w.
Proof.
  split.
  - unfold check_dependencies, try_except, bind. rewrite version_query.
    destruct (decide ("docker" ∈ on_path w)); [|done].
    destruct (Z.eqb_spec (returncode w ["docker"; "--version"] None) 0);
      [|done].
    simpl. rewrite version_query.
    destruct (decide ("docker-compose" ∈ on_path w)); [|done].
    destruct (Z.eqb_spec (returncode w ["docker-compose"; "--version"] None) 0);
      [|done].
    simpl. by intros [= <-].
  - intros (Hd & Hrd & Hc & Hrc & ->). by apply check_dependencies_ok.
Qed.

(** The checker never touches the file system or the browser. *)
Lemma check_dependencies_frame (w : World) :
  fs (world_of (check_dependencies w)) = fs w
  ∧ browser (world_of (check_dependencies w)) = browser w.
Proof.
  unfold check_dependencies, try_except, bind. rewrite version_query.
  destruct (decide ("docker" ∈ on_path w)); [|done].
  destruct (returncode w ["docker"; "--version"] None =? 0); [|done].
  simpl. rewrite version_query.
  destruct (decide ("docker-compose" ∈ on_path w)); [|done].
  by destruct (returncode w ["docker-compose"; "--version"] None =? 0).
Qed.

(** X4. A [create] run whose dependency check raises ends there, with the
    checker's exception: no directory or file has been written, no host
    entry added, and no browser opened. *)
Theorem create_run_stops_at_failed_check (s : string) (w w' : World) (e : exn) :
  check_dependencies w = Raise e w' →
  main s "create" w = Raise e w'
  ∧ fs w' = fs w ∧ browser w' = browser w.
Proof.
  intros Hc. destruct (check_dependencies_frame w) as [Hfs Hb].
  rewrite Hc in Hfs, Hb. simpl in Hfs, Hb. split; [|done].
  unfold main. rewrite decide_True by (unfold choices; set_solver).
  rewrite decide_True by done. unfold bind at 1. by rewrite Hc.
Qed.

Lemma create_run_stops_at_failed_check_witness :
  check_dependencies broken_docker_box
    = Raise (SystemExit 1)
        (with_stdout (λ out, out ++ [docker_missing_message])
           broken_docker_box)
  ∧ main "foo" "create" broken_docker_box
    = Raise (SystemExit 1)
        (with_stdout (λ out, out ++ [docker_missing_message])
           broken_docker_box)
  ∧ fs (with_stdout (λ out, out ++ [docker_missing_message]) broken_docker_box)
    = fs broken_docker_box
  ∧ browser (with_stdout (λ out, out ++ [docker_missing_message])
               broken_docker_box)
    = browser broken_docker_box.
Proof.
  assert (check_dependencies broken_docker_box
          = Raise (SystemExit 1)
              (with_stdout (λ out, out ++ [docker_missing_message])
                 broken_docker_box)) as Hc by by vm_compute.
  split; [done|].
  by apply (create_run_stops_at_failed_check "foo" broken_docker_box).
Defined.

(** ** More on site creation *)










(** X7. When [create_wordpress_site] returns, and so has printed that the
    site was created, the site directory exists and both of its files hold
    the generated texts. *)
Theorem create_returns_only_with_site_in_place (s : string) (w w' : World) :
  create_wordpress_site s w = Ok tt w' →
  isdir w' s = true
  ∧ fs w' !! compose_path s = Some (File (compose_text s))
  ∧ fs w' !! nginx_path s = Some (File (nginx_text s))
  ∧ created_message s ∈ stdout w'.
Proof.
  intros Hc.
  assert (materializable s w = true) as Hm.
  { apply site_materializer_returns_iff. revert Hc. rewrite create_split.
    unfold bind. destruct (site_materializer s w) as [[] wm|]; [eauto|done]. }
  pose proof (create_lookup_site s w Hm) as Hs.
  pose proof (create_lookup_compose s w Hm) as Hcp.
  pose proof (create_lookup_nginx s w Hm) as Hn.
  destruct (create_returns s w w' Hc) as (_ & pre & Hout & _).
  rewrite Hc in Hs, Hcp, Hn. simpl in Hs, Hcp, Hn. split_and!; try done.
  - apply isdir_true. split; [|done]. by apply (materializable_nonempty s w).
  - rewrite Hout. set_solver.
Qed.

Lemma create_returns_only_with_site_in_place_witness :
  create_wordpress_site "foo" linux_box
    = Ok tt (world_of (create_wordpress_site "foo" linux_box))
  ∧ isdir (world_of (create_wordpress_site "foo" linux_box)) "foo" = true
  ∧ fs (world_of (create_wordpress_site "foo" linux_box)) !! compose_path "foo"
    = Some (File (compose_text "foo"))
  ∧ fs (world_of (create_wordpress_site "foo" linux_box)) !! nginx_path "foo"
    = Some (File (nginx_text "foo"))
  ∧ created_message "foo"
    ∈ stdout (world_of (create_wordpress_site "foo" linux_box)).
Proof.
  split; [by vm_compute|].
  apply (create_returns_only_with_site_in_place "foo" linux_box).
  by vm_compute.
Defined.

(** ** More on the host registrar *)

Lemma materialized_lookup_other (s : string) (m : gmap string node) (q : string) :
  q ≠ s → last_char q = Some "s"%char → materialized s m !! q = m !! q.
Proof.
  intros Hs Hq. unfold materialized. rewrite !lookup_insert_ne; [done..| |].
  - intros <-. by rewrite last_char_compose_path in Hq.
  - intros <-. by rewrite last_char_nginx_path in Hq.
Qed.

(** A regular file at a path keeps a site from being made there. *)
Lemma file_not_site (s : string) (w : World) (q h : string) :
  materializable s w = true → fs w !! q = Some (File h) → q ≠ s.
Proof.
  unfold materializable, creatable_dir, stat.
  intros [[Hd _]%andb_true_iff _]%andb_true_iff Hh ->.
  destruct (decide (s = "")) as [->|]; [|by rewrite Hh in Hd].
  by rewrite bool_decide_eq_false_2 in Hd by auto.
Qed.

(** X8. On a platform other than Windows, a hosts file the process may
    not write makes [create_wordpress_site] end in an uncaught
    [PermissionError] after the site has been materialized: the directory
    and both files stay behind, the hosts file is as it was, and neither a
    message nor the browser follows. *)
Theorem create_leaves_site_when_hosts_not_writable
    (s : string) (w : World) (h : string) :
  system w ≠ "Windows" →
  fs w !! "/etc/hosts" = Some (File h) → "/etc/hosts" ∈ denied w →
  materializable s w = true →
  create_wordpress_site s w
    = Raise (PermissionError "/etc/hosts") (with_fs (materialized s) w)
  ∧ materialized s (fs w) !! "/etc/hosts" = Some (File h)
  ∧ materialized s (fs w) !! s = Some Dir.
Proof.
  intros Hsys Hh Hd Hm.
  assert (materialized s (fs w) !! "/etc/hosts" = Some (File h)) as Hl.
  { rewrite materialized_lookup_other; [done| |done].
    by apply (file_not_site s w _ h). }
  split; [|split; [done|apply materialized_lookup_site]].
  rewrite create_split. unfold bind at 1.
  rewrite (site_materializer_ok _ _ Hm). unfold bind.
  unfold host_registrar, platform_system, bind. simpl.
  rewrite decide_False by done.
  unfold add_host_entry_unix, append_file, stat. simpl. rewrite Hl.
  by rewrite decide_True.
Qed.

Lemma create_leaves_site_when_hosts_not_writable_witness :
  system readonly_hosts_box ≠ "Windows"
  ∧ fs readonly_hosts_box !! "/etc/hosts"
    = Some (File ("127.0.0.1 localhost" +:+ nl))
  ∧ "/etc/hosts" ∈ denied readonly_hosts_box
  ∧ materializable "foo" readonly_hosts_box = true
  ∧ create_wordpress_site "foo" readonly_hosts_box
    = Raise (PermissionError "/etc/hosts")
        (with_fs (materialized "foo") readonly_hosts_box)
  ∧ materialized "foo" (fs readonly_hosts_box) !! "/etc/hosts"
    = Some (File ("127.0.0.1 localhost" +:+ nl))
  ∧ materialized "foo" (fs readonly_hosts_box) !! "foo" = Some Dir.
Proof.
  assert (system readonly_hosts_box ≠ "Windows") as Hsys by done.
  assert ("/etc/hosts" ∈ denied readonly_hosts_box) as Hd
    by (simpl; set_solver).
  split; [done|]. split; [by vm_compute|]. split; [done|].
  split; [by vm_compute|].
  apply (create_leaves_site_when_hosts_not_writable "foo" readonly_hosts_box
           ("127.0.0.1 localhost" +:+ nl)); try done; by vm_compute.
Defined.

(** X9. On Windows without administrator rights,
    [create_wordpress_site] prints that it needs them and raises
    [SystemExit(1)], after the site has been materialized and before any
    hosts file is looked for. *)
Theorem create_on_windows_requires_admin (s : string) (w : World) :
  system w = "Windows" → is_admin w = false →
  materializable s w = true →
  create_wordpress_site s w
  = Raise (SystemExit 1)
      (with_stdout (λ out, out ++ [admin_required_message])
         (with_fs (materialized s) w)).
Proof.
  intros Hsys Ha Hm. rewrite create_split. unfold bind at 1.
  rewrite (site_materializer_ok _ _ Hm). unfold bind.
  unfold host_registrar, platform_system, bind. simpl.
  rewrite decide_True by done.
  unfold add_host_entry_windows, is_user_an_admin, bind. simpl.
  by rewrite Ha.
Qed.

Lemma create_on_windows_requires_admin_witness :
  system windows_user_box = "Windows"
  ∧ is_admin windows_user_box = false
  ∧ materializable "foo" windows_user_box = true
  ∧ create_wordpress_site "foo" windows_user_box
    = Raise (SystemExit 1)
        (with_stdout (λ out, out ++ [admin_required_message])
           (with_fs (materialized "foo") windows_user_box)).
Proof.
  split; [done|]. split; [done|]. split; [by vm_compute|].
  apply (create_on_windows_requires_admin "foo" windows_user_box);
    by vm_compute.
Defined.

Lemma append_file_raises_exception (p d : string) (w w1 : World) (e : exn) :
  append_file p d w = Raise e w1 → is_Exception e = true.
Proof.
  unfold append_file.
  destruct (stat w p) as [[c|]|]; repeat case_decide; by intros [= <- <-].
Qed.

(** With administrator rights the Windows registrar always returns, having
    printed one line. *)
Lemma add_host_entry_windows_admin (s : string) (w : World) :
  is_admin w = true →
  ∃ w' line,
    add_host_entry_windows s w = Ok tt w'
    ∧ stdout w' = stdout w ++ [line] ∧ browser w' = browser w
    ∧ (line = hosts_added_message ∨ ∃ e, line = "Error: " +:+ str_exn w e).
Proof.
  intros Ha. unfold add_host_entry_windows, is_user_an_admin, bind.
  rewrite Ha. simpl. unfold try_except, winreg_hosts_path, bind.
  destruct (win_hosts_dir w) as [d|]; simpl.
  - destruct (append_file_frame (d +:+ "hosts") (host_entry s) w)
      as ((_&_&_&_&_&_&Hstr) & Hout & Hb & _).
    destruct (append_file (d +:+ "hosts") (host_entry s) w)
      as [[] w1|e w1] eqn:E; simpl in *.
    + eexists _, _. split; [done|]. simpl. rewrite Hout, Hb. eauto.
    + rewrite (append_file_raises_exception _ _ _ _ _ E).
      eexists _, _. split; [done|]. simpl. rewrite Hout, Hb, Hstr. eauto.
  - eexists _, _. split; [done|]. simpl. eauto.
Qed.

(** X10. On Windows with administrator rights, every error of the host
    registration (no registry entry, no permission on the hosts file, a
    directory in its place) is caught and printed, and
    [create_wordpress_site] goes on to report the site as created and to
    open the browser: it returns whenever the site can be materialized. *)
Theorem create_on_windows_swallows_host_errors (s : string) (w : World) :
  system w = "Windows" → is_admin w = true →
  materializable s w = true →
  ∃ w' line,
    create_wordpress_site s w = Ok tt w'
    ∧ stdout w'
      = stdout w ++ [line; created_message s; wait_message; opening_message]
    ∧ browser w' = browser w ++ ["http://" +:+ s]
    ∧ (line = hosts_added_message ∨ ∃ e, line = "Error: " +:+ str_exn w e).
Proof.
  intros Hsys Ha Hm. rewrite create_split. unfold bind at 1.
  rewrite (site_materializer_ok _ _ Hm). unfold bind.
  unfold host_registrar, platform_system, bind. simpl.
  rewrite decide_True by done.
  destruct (add_host_entry_windows_admin s (with_fs (materialized s) w) Ha)
    as (w1 & line & -> & Hout & Hb & Hline).
  rewrite announce_ok. eexists. exists line. split; [done|]. simpl.
  rewrite Hout, Hb, <- app_assoc. by split_and!.
Qed.

Lemma create_on_windows_swallows_host_errors_witness :
  system windows_admin_box = "Windows"
  ∧ is_admin windows_admin_box = true
  ∧ materializable "foo" windows_admin_box = true
  ∧ ∃ w' line,
      create_wordpress_site "foo" windows_admin_box = Ok tt w'
      ∧ stdout w'
        = stdout windows_admin_box
          ++ [line; created_message "foo"; wait_message; opening_message]
      ∧ browser w' = browser windows_admin_box ++ ["http://" +:+ "foo"]
      ∧ (line = hosts_added_message
         ∨ ∃ e, line = "Error: " +:+ str_exn windows_admin_box e).
Proof.
  split; [done|]. split; [done|]. split; [by vm_compute|].
  apply (create_on_windows_swallows_host_errors "foo" windows_admin_box);
    by vm_compute.
Defined.

(** X11. On Windows with administrator rights and a writable hosts file
    where the registry places it, [create_wordpress_site] appends the
    line [127.0.0.1 s] to that file, prints that the entry was added, and
    then reports the site and opens the browser. *)
Theorem create_on_windows_appends_host_entry
    (s : string) (w : World) (d h : string) :
  system w = "Windows" → is_admin w = true →
  win_hosts_dir w = Some d →
  fs w !! (d +:+ "hosts") = Some (File h) → d +:+ "hosts" ∉ denied w →
  materializable s w = true →
  create_wordpress_site s w
  = Ok tt
      (with_browser (λ urls, urls ++ ["http://" +:+ s])
         (with_stdout
            (λ out, out ++ [created_message s; wait_message; opening_message])
            (with_stdout (λ out, out ++ [hosts_added_message])
               (with_fs (<[d +:+ "hosts" := File (h +:+ "127.0.0.1 " +:+ s +:+ nl)]>)
                  (with_fs (materialized s) w))))).
Proof.
  intros Hsys Ha Hdir Hh Hd Hm.
  assert (materialized s (fs w) !! (d +:+ "hosts") = Some (File h)) as Hl.
  { rewrite materialized_lookup_other; [done| |by rewrite last_char_app].
    by apply (file_not_site s w _ h). }
  rewrite create_split. unfold bind at 1.
  rewrite (site_materializer_ok _ _ Hm). unfold bind.
  unfold host_registrar, platform_system, bind. simpl.
  rewrite decide_True by done.
  unfold add_host_entry_windows, is_user_an_admin, bind. simpl.
  rewrite Ha. simpl. unfold try_except, winreg_hosts_path, bind. simpl.
  rewrite Hdir. unfold append_file, stat. simpl.
  rewrite decide_False by by apply string_app_nonempty.
  rewrite Hl. rewrite decide_False by done. simpl.
  by rewrite announce_ok.
Qed.

Lemma create_on_windows_appends_host_entry_witness :
  system windows_hosts_box = "Windows"
  ∧ is_admin windows_hosts_box = true
  ∧ win_hosts_dir windows_hosts_box
    = Some "C:\Windows\System32\drivers\etc\"
  ∧ fs windows_hosts_box !! ("C:\Windows\System32\drivers\etc\" +:+ "hosts")
    = Some (File ("127.0.0.1 localhost" +:+ nl))
  ∧ ("C:\Windows\System32\drivers\etc\" +:+ "hosts" ∉ denied windows_hosts_box)
  ∧ materializable "foo" windows_hosts_box = true
  ∧ create_wordpress_site "foo" windows_hosts_box
    = Ok tt
        (with_browser (λ urls, urls ++ ["http://" +:+ "foo"])
           (with_stdout
              (λ out, out ++ [created_message "foo"; wait_message;
                              opening_message])
              (with_stdout (λ out, out ++ [hosts_added_message])
                 (with_fs
                    (<["C:\Windows\System32\drivers\etc\" +:+ "hosts" :=
                       File (("127.0.0.1 localhost" +:+ nl)
                             +:+ "127.0.0.1 " +:+ "foo" +:+ nl)]>)
                    (with_fs (materialized "foo") windows_hosts_box))))).
Proof.
  assert ("C:\Windows\System32\drivers\etc\" +:+ "hosts"
          ∉ denied windows_hosts_box) as Hd by (simpl; set_solver).
  split; [done|]. split; [done|]. split; [done|]. split; [by vm_compute|].
  split; [done|]. split; [by vm_compute|].
  apply (create_on_windows_appends_host_entry "foo" windows_hosts_box
           "C:\Windows\System32\drivers\etc\"
           ("127.0.0.1 localhost" +:+ nl)); try done; by vm_compute.
Defined.

Lemma string_app_nil_r (s : string) : s +:+ "" = s.
Proof. induction s as [|c s IH]; [done|]. by rewrite string_app_cons, IH. Qed.

(** X12. On a platform other than Windows with a writable hosts file, [n]
    runs of [create_wordpress_site] for the same site all return, and they
    leave the hosts file with [n] copies of the line [127.0.0.1 s] after
    its old text, and the site opened [n] times in the browser: no run
    looks for the entries of the runs before it. *)
Theorem hosts_file_accumulates_entries
    (n : nat) (s : string) (w : World) (h : string) :
  system w ≠ "Windows" →
  fs w !! "/etc/hosts" = Some (File h) → "/etc/hosts" ∉ denied w →
  materializable s w = true →
  ∃ w', create_times n s w = Ok tt w'
        ∧ fs w' !! "/etc/hosts"
          = Some (File (h +:+ repeat_text n ("127.0.0.1 " +:+ s +:+ nl)))
        ∧ browser w' = browser w ++ replicate n ("http://" +:+ s).
Proof.
  revert w h. induction n as [|n IH]; intros w h Hsys Hh Hd Hm.
  - exists w. simpl. by rewrite string_app_nil_r, app_nil_r.
  - pose proof (create_unix_ok s w h Hsys Hh Hd Hm) as H1.
    pose proof (create_materializable s w Hm) as Hm1.
    rewrite H1 in Hm1. simpl in Hm1.
    match type of Hm1 with
    | materializable s ?v = true =>
        destruct (IH v (h +:+ host_entry s)) as (w' & Hrun & Hfs & Hb);
        [done|apply lookup_insert_eq|done|done|]
    end.
    exists w'. simpl create_times. unfold bind. rewrite H1.
    split; [done|]. split.
    + rewrite Hfs. simpl. unfold host_entry. by rewrite !string_app_assoc.
    + rewrite Hb. simpl. by rewrite <- app_assoc.
Qed.

Lemma hosts_file_accumulates_entries_witness :
  system linux_box ≠ "Windows"
  ∧ fs linux_box !! "/etc/hosts" = Some (File ("127.0.0.1 localhost" +:+ nl))
  ∧ ("/etc/hosts" ∉ denied linux_box)
  ∧ materializable "foo" linux_box = true
  ∧ ∃ w', create_times 3 "foo" linux_box = Ok tt w'
          ∧ fs w' !! "/etc/hosts"
            = Some (File (("127.0.0.1 localhost" +:+ nl)
                          +:+ repeat_text 3 ("127.0.0.1 " +:+ "foo" +:+ nl)))
          ∧ browser w'
            = browser linux_box ++ replicate 3 ("http://" +:+ "foo").
Proof.
  assert (system linux_box ≠ "Windows") as Hsys by done.
  assert ("/etc/hosts" ∉ denied linux_box) as Hd by (simpl; set_solver).
  split; [done|]. split; [by vm_compute|]. split; [done|].
  split; [by vm_compute|].
  apply (hosts_file_accumulates_entries 3 "foo" linux_box
           ("127.0.0.1 localhost" +:+ nl)); try done; by vm_compute.
Defined.

(** ** More on the generated texts *)

Lemma string_app_inj_r (s1 s2 t : string) : s1 +:+ t = s2 +:+ t → s1 = s2.
Proof.
  revert s2. induction s1 as [|c s1 IH]; intros [|c2 s2] H; [done| | |].
  - change ("" +:+ t) with t in H. apply (f_equal String.length) in H.
    rewrite string_app_cons in H. simpl in H.
    rewrite string_length_app in H. lia.
  - change ("" +:+ t) with t in H. apply (f_equal String.length) in H.
    rewrite string_app_cons in H. simpl in H.
    rewrite string_length_app in H. lia.
  - rewrite !string_app_cons in H. injection H as -> H. f_equal. by apply IH.
Qed.

(** X13. The site name can be read back from what the script generates for
    it: two different site names never get the same proxy configuration,
    nor the same host entry. *)
Theorem nginx_text_tells_sites_apart (s1 s2 : string) :
  s1 ≠ s2 →
  nginx_text s1 ≠ nginx_text s2 ∧ host_entry s1 ≠ host_entry s2.
Proof.
  intros Hne. split; intros H; apply Hne.
  - rewrite !nginx_text_split in H.
    apply (inj (String.app _)) in H. apply (inj (String.app _)) in H.
    by apply string_app_inj_r in H.
  - unfold host_entry in H. apply (inj (String.app _)) in H.
    by apply string_app_inj_r in H.
Qed.

Lemma nginx_text_tells_sites_apart_witness :
  "foo" ≠ "foo.example"
  ∧ nginx_text "foo" ≠ nginx_text "foo.example"
  ∧ host_entry "foo" ≠ host_entry "foo.example".
Proof.
  assert ("foo" ≠ "foo.example") as Hne by done.
  split; [done|]. by apply (nginx_text_tells_sites_apart "foo" "foo.example").
Defined.

(** ** More on deletion *)







(** X15. For a site whose directory exists, [delete] without a
    [docker-compose] executable to start ends in an uncaught
    [FileNotFoundError] before the directory is touched: the site stays,
    and nothing is printed. *)
Theorem delete_without_orchestrator_keeps_the_site (s : string) (w : World) :
  isdir w s = true → "docker-compose" ∉ on_path w →
  delete_wordpress_site s w = Raise (FileNotFoundError "docker-compose") w.
Proof.
  intros Hd Hexe. unfold delete_wordpress_site, bind, subprocess_run.
  unfold isdir in Hd. destruct (stat w s) as [[c|]|]; try done.
  simpl. by rewrite decide_False.
Qed.

Lemma delete_without_orchestrator_keeps_the_site_witness :
  isdir no_compose_box "foo" = true
  ∧ ("docker-compose" ∉ on_path no_compose_box)
  ∧ delete_wordpress_site "foo" no_compose_box
    = Raise (FileNotFoundError "docker-compose") no_compose_box.
Proof.
  assert ("docker-compose" ∉ on_path no_compose_box) as Hexe
    by (simpl; set_solver).
  split; [by vm_compute|]. split; [done|].
  apply (delete_without_orchestrator_keeps_the_site "foo" no_compose_box);
    [by vm_compute|done].
Defined.






(** ** More on the create run *)


